(** * SaltyRTC signalling server: the protocol engine of
      [saltyrtc/server/protocol.py], embedded and checked against its
      specification.

    The Python objects ([Path], [Client], [Protocol]) are mutable and shared:
    the slots of a [Path] hold references to [Client] instances, and the
    global path table holds references to [Path] instances.  They live in an
    object store and are addressed by reference.  Coroutines are functions in
    a state-and-exception monad over that store; what the event loop, the
    WebSocket library and NaCl contribute is kept in the world (inboxes,
    connection status, entropy) or taken as a parameter. *)

From Stdlib Require Import Ascii.
From stdpp Require Import gmap strings list pretty.

Local Open Scope Z_scope.

(** ** Python values *)

(** [bytes]: a sequence of 8-bit values. *)
Abbreviation bytes := (list Z).

(** An insertion-ordered [dict]: iteration order is observable
    ([get_responder_ids], [add_responder]), so the entries are kept as a list. *)
Module dict.

Definition t (V : Type) : Type := list (Z * V).

Fixpoint lookup {V} (k : Z) (d : t V) : option V :=
  match d with
  | [] => None
  | (k', v) :: d' => if bool_decide (k' = k) then Some v else lookup k d'
  end.

(** [d[k] = v]: an existing key keeps its position, a new one goes last. *)
Fixpoint set {V} (k : Z) (v : V) (d : t V) : t V :=
  match d with
  | [] => [(k, v)]
  | (k', v') :: d' =>
      if bool_decide (k' = k) then (k, v) :: d' else (k', v') :: set k v d'
  end.

Definition keys {V} (d : t V) : list Z := d.*1.
Definition values {V} (d : t V) : list V := d.*2.

End dict.

(** [d.get(k)] on a dict whose values are references or [None]: a missing key
    reads as [None] too. *)
Definition dict_get {R} (k : Z) (d : dict.t (option R)) : option R :=
  default None (dict.lookup k d).

(** ** Exceptions

    The builtins, the exceptions of asyncio, of websockets and of binascii
    the engine can meet, then the classes of [saltyrtc.server.exception]. *)
Inductive exn : Type :=
| TypeError
| AttributeError
| ValueError
| KeyError
| TimeoutError
| CancelledError
| ConnectionClosed
| binascii_Error
| SignalingError
| PathError
| Disconnected
| MessageError
| MessageFlowError
| SlotsFullError
| PingTimeoutError.

#[global] Instance exn_eq_dec : EqDecision exn.
Proof. solve_decision. Defined.

(** ** Constants of [saltyrtc.server.common] *)

(** Modelled from the spec: [KEY_LENGTH] of [common.py], which is not part
    of the sources; public and secret keys are 32 bytes. *)
Definition KEY_LENGTH : nat := 32.

(** Modelled from the spec: [COOKIE_LENGTH] of [common.py]; a cookie is a
    16-byte random value. *)
Definition COOKIE_LENGTH : nat := 16.

(** Modelled from the spec: [RELAY_TIMEOUT] of [common.py]; the bounded wait
    of the relay defaults to 30 seconds. *)
Definition RELAY_TIMEOUT : Z := 30.

(** Modelled from the spec: [KEEP_ALIVE_TIMEOUT] of [common.py]; the wait
    for the pong defaults to 30 seconds. *)
Definition KEEP_ALIVE_TIMEOUT : Z := 30.

(** The two enumerations of [common.py], by the members [protocol.py] names
    and the message kinds of the specification. *)
Module ReceiverType.
Inductive t : Type := initiator | responder.
#[global] Instance eq_dec : EqDecision t.
Proof. solve_decision. Defined.
End ReceiverType.

Module MessageType.
Inductive t : Type :=
| server_hello | client_hello | client_auth | server_auth
| new_responder | drop_responder | send_error.
#[global] Instance eq_dec : EqDecision t.
Proof. solve_decision. Defined.
End MessageType.

(** ** Messages *)

(** Modelled from the spec: the message classes of [message.py], which is
    not part of the sources.  One constructor per class the engine creates or
    inspects, with the fields [protocol.py] reads.  [RawMessage] is the opaque
    relay frame: its destination byte, its nonce and its undecrypted
    payload. *)
Inductive Message : Type :=
| ServerHelloMessage (server_public_key server_cookie : bytes)
| ClientHelloMessage (client_public_key : bytes)
| ClientAuthMessage (server_cookie client_cookie : bytes)
| ServerAuthMessage (client_cookie : bytes) (responder_ids : option (list Z))
| NewResponderMessage (responder_id : Z)
| DropResponderMessage (responder_id : Z)
| SendErrorMessage (hash : bytes)
| RawMessage (receiver : Z) (nonce data : bytes).

(** Modelled from the spec: [message.type] of [message.py]; a relay frame
    has no structured payload and matches no message type. *)
Definition Message_type (m : Message) : option MessageType.t :=
  match m with
  | ServerHelloMessage _ _ => Some MessageType.server_hello
  | ClientHelloMessage _ => Some MessageType.client_hello
  | ClientAuthMessage _ _ => Some MessageType.client_auth
  | ServerAuthMessage _ _ => Some MessageType.server_auth
  | NewResponderMessage _ => Some MessageType.new_responder
  | DropResponderMessage _ => Some MessageType.drop_responder
  | SendErrorMessage _ => Some MessageType.send_error
  | RawMessage _ _ _ => None
  end.

(** ** Objects *)

(** [libnacl.public.SecretKey] and [libnacl.public.Box]. *)
Record SecretKey : Type := { sk : bytes; pk : bytes }.
Record Box : Type := { box_sk : bytes; box_pk : bytes }.

(** [class Client], its [__slots__]; the logger is kept by its name. *)
Record Client : Type := {
  _log : string;
  _connection : nat;
  _client_key : bytes;
  _server_key : option SecretKey;
  _box : option Box;
  type : option ReceiverType.t;
  authenticated : bool
}.

(** [class Path], its [__slots__]; slots hold [Client] references. *)
Record Path : Type := {
  _slots : dict.t (option nat);
  log : string;
  initiator_key : bytes;
  number : Z
}.

(** [class Protocol]: the path counter, the path table (initiator key to
    [Path] reference) and whether [_closed_future] is done. *)
Record Protocol : Type := {
  _path_number : Z;
  _paths : gmap (list Z) nat;
  _closed_future_done : bool
}.

(** A WebSocket connection as the engine sees it.  Each inbound frame is
    stored as what [unpack] of [message.py], which is not part of the
    sources, makes of it (a message, or the exception it raises).  [conn_open] is false once the peer has closed; [writable] is
    false when a write does not complete (the transport is stalled);
    [answers_pings] tells whether the peer replies to pings with pongs. *)
Record Connection : Type := {
  inbox : list (exn + Message);
  conn_open : bool;
  writable : bool;
  answers_pings : bool
}.

(** What was handed to [Client.send]: a message object or packed bytes. *)
Inductive Sendable : Type :=
| AsMessage (m : Message)
| AsBytes (b : bytes).

(** Observable effects, in the order they happen. *)
Inductive Event : Type :=
| EvSend (conn : nat) (what : Sendable) (data : bytes)
| EvPing (conn : nat)
| EvSleep (seconds : Z)
| EvCancel (task : nat).

(** Coroutines handed to [loop.create_task]. *)
Inductive Task : Type :=
| Task_send (client : nat) (message : Message)
| Task_close (client : option nat)
| Task_relay_message (path sender : nat) (receiver : option nat)
    (message : Message).

Record World : Type := {
  clients : gmap nat Client;
  path_objs : gmap nat Path;
  connections : gmap nat Connection;
  protocol : Protocol;
  scheduled : list Task;
  trace : list Event;
  next_ref : nat;
  entropy : nat -> Z;
  entropy_pos : nat
}.

(** ** The coroutine monad

    A computation ends by returning, by raising, or it stays suspended
    ([Pending]: it awaits something that does not arrive, or it is still
    looping when the explored horizon ends).  [Stuck] marks a world that
    Python cannot produce (a dangling reference).  State changes made before
    an exception are kept, as in Python. *)
Inductive result (A : Type) : Type :=
| Ret (a : A)
| Raise (e : exn)
| Pending
| Stuck.
Arguments Ret {A} a.
Arguments Raise {A} e.
Arguments Pending {A}.
Arguments Stuck {A}.

Definition M (A : Type) : Type := World -> result A * World.

#[global] Instance M_ret : MRet M := fun A a w => (Ret a, w).

#[global] Instance M_bind : MBind M := fun A B f m w =>
  match m w with
  | (Ret a, w') => f a w'
  | (Raise e, w') => (Raise e, w')
  | (Pending, w') => (Pending, w')
  | (Stuck, w') => (Stuck, w')
  end.

Definition raise {A} (e : exn) : M A := fun w => (Raise e, w).
Definition pending {A} : M A := fun w => (Pending, w).
Definition stuck {A} : M A := fun w => (Stuck, w).

(** [asyncio.wait_for(coroutine, timeout)]: a coroutine that does not
    complete is cancelled and [TimeoutError] is raised. *)
Definition wait_for {A} (m : M A) (timeout : Z) : M A := fun w =>
  match m w with
  | (Pending, w') => (Raise TimeoutError, w')
  | r => r
  end.

(** [try: m except e: handler]. *)
Definition try_except {A} (m : M A) (handler : exn -> option (M A)) : M A :=
  fun w =>
    match m w with
    | (Raise e, w') =>
        match handler e with
        | Some h => h w'
        | None => (Raise e, w')
        end
    | r => r
    end.

(** *** Store access *)

Definition set_clients (f : gmap nat Client -> gmap nat Client) (w : World) : World :=
  {| clients := f (clients w); path_objs := path_objs w;
     connections := connections w; protocol := protocol w;
     scheduled := scheduled w; trace := trace w; next_ref := next_ref w;
     entropy := entropy w; entropy_pos := entropy_pos w |}.

Definition set_path_objs (f : gmap nat Path -> gmap nat Path) (w : World) : World :=
  {| clients := clients w; path_objs := f (path_objs w);
     connections := connections w; protocol := protocol w;
     scheduled := scheduled w; trace := trace w; next_ref := next_ref w;
     entropy := entropy w; entropy_pos := entropy_pos w |}.

Definition set_connections (f : gmap nat Connection -> gmap nat Connection)
    (w : World) : World :=
  {| clients := clients w; path_objs := path_objs w;
     connections := f (connections w); protocol := protocol w;
     scheduled := scheduled w; trace := trace w; next_ref := next_ref w;
     entropy := entropy w; entropy_pos := entropy_pos w |}.

Definition set_protocol (f : Protocol -> Protocol) (w : World) : World :=
  {| clients := clients w; path_objs := path_objs w;
     connections := connections w; protocol := f (protocol w);
     scheduled := scheduled w; trace := trace w; next_ref := next_ref w;
     entropy := entropy w; entropy_pos := entropy_pos w |}.

Definition set_scheduled (f : list Task -> list Task) (w : World) : World :=
  {| clients := clients w; path_objs := path_objs w;
     connections := connections w; protocol := protocol w;
     scheduled := f (scheduled w); trace := trace w; next_ref := next_ref w;
     entropy := entropy w; entropy_pos := entropy_pos w |}.

Definition set_trace (f : list Event -> list Event) (w : World) : World :=
  {| clients := clients w; path_objs := path_objs w;
     connections := connections w; protocol := protocol w;
     scheduled := scheduled w; trace := f (trace w); next_ref := next_ref w;
     entropy := entropy w; entropy_pos := entropy_pos w |}.

Definition load_client (c : nat) : M Client := fun w =>
  match clients w !! c with
  | Some x => (Ret x, w)
  | None => (Stuck, w)
  end.

Definition update_client (c : nat) (f : Client -> Client) : M unit := fun w =>
  match clients w !! c with
  | Some x => (Ret tt, set_clients (insert c (f x)) w)
  | None => (Stuck, w)
  end.

Definition load_path (p : nat) : M Path := fun w =>
  match path_objs w !! p with
  | Some x => (Ret x, w)
  | None => (Stuck, w)
  end.

Definition update_path (p : nat) (f : Path -> Path) : M unit := fun w =>
  match path_objs w !! p with
  | Some x => (Ret tt, set_path_objs (insert p (f x)) w)
  | None => (Stuck, w)
  end.

Definition modify (f : World -> World) : M unit := fun w => (Ret tt, f w).

Definition get_protocol : M Protocol := fun w => (Ret (protocol w), w).

Definition update_protocol (f : Protocol -> Protocol) : M unit := fun w =>
  (Ret tt, set_protocol f w).

Definition emit (e : Event) : M unit := fun w =>
  (Ret tt, set_trace (fun t => t ++ [e]) w).

(** [loop.create_task(coroutine)]: the coroutine starts at a later turn of
    the event loop. *)
Definition create_task (t : Task) : M unit := fun w =>
  (Ret tt, set_scheduled (fun q => q ++ [t]) w).

(** A new object: the next free reference. *)
Definition new_ref : M nat := fun w =>
  (Ret (next_ref w),
   {| clients := clients w; path_objs := path_objs w;
      connections := connections w; protocol := protocol w;
      scheduled := scheduled w; trace := trace w; next_ref := S (next_ref w);
      entropy := entropy w; entropy_pos := entropy_pos w |}).

(** [os.urandom(n)]: the next [n] bytes of the entropy source. *)
Definition os_urandom (n : nat) : M (list Z) := fun w =>
  (Ret (entropy w <$> seq (entropy_pos w) n),
   {| clients := clients w; path_objs := path_objs w;
      connections := connections w; protocol := protocol w;
      scheduled := scheduled w; trace := trace w; next_ref := next_ref w;
      entropy := entropy w; entropy_pos := (entropy_pos w + n)%nat |}).

(** *** The WebSocket connection (the [websockets] library)

    [send] writes a frame and [recv] reads one.  [ping], in the words of the
    library, "sends a ping.  It returns a Future which will be completed when
    the corresponding pong is received and which you may ignore if you don't
    want to wait": awaiting [ping()] ends when the ping frame is written.
    All three raise [ConnectionClosed] on a closed connection. *)

Definition get_connection (conn : nat) : M Connection := fun w =>
  match connections w !! conn with
  | Some x => (Ret x, w)
  | None => (Stuck, w)
  end.

Definition connection_send (conn : nat) (what : Sendable) (data : bytes)
    : M unit :=
  k ← get_connection conn;
  if negb (conn_open k) then raise ConnectionClosed
  else if negb (writable k) then pending
  else emit (EvSend conn what data).

(** The frame read, as what [unpack] will make of it. *)
Definition connection_recv (conn : nat) : M (exn + Message) :=
  k ← get_connection conn;
  match inbox k with
  | frame :: rest =>
      modify (set_connections (insert conn
        {| inbox := rest; conn_open := conn_open k; writable := writable k;
           answers_pings := answers_pings k |}));;
      mret frame
  | [] => if conn_open k then pending else raise ConnectionClosed
  end.

(** The returned value stands for the pong future: it tells whether the pong
    will arrive. *)
Definition connection_ping (conn : nat) : M bool :=
  k ← get_connection conn;
  if negb (conn_open k) then raise ConnectionClosed
  else if negb (writable k) then pending
  else emit (EvPing conn);; mret (answers_pings k).

(** [except websockets.ConnectionClosed as exc: raise Disconnected() from exc]. *)
Definition on_connection_closed {A} (e : exn) : option (M A) :=
  match e with
  | ConnectionClosed => Some (raise Disconnected)
  | _ => None
  end.

Section Engine.

(** NaCl and the codec are external: the SHA-256 hash, the public key of a
    secret key, and the packing of a structured message for a client. *)
Variable crypto_hash_sha256 : bytes -> bytes.
Variable crypto_scalarmult_base : bytes -> bytes.
Variable pack_structured : Message -> Client -> bytes.

(** [KEEP_ALIVE_INTERVAL] of [common.py], in seconds. *)
Variable KEEP_ALIVE_INTERVAL : Z.

(** Modelled from the spec: [message.pack(client)] of [message.py], which is
    not part of the sources.  A relay frame is forwarded verbatim, its wire
    bytes are the nonce followed by the ciphertext. *)
Definition pack (message : Message) (client : Client) : bytes :=
  match message with
  | RawMessage _ nonce data => nonce ++ data
  | _ => pack_structured message client
  end.

(** Modelled from the spec: [util.consteq], a constant-time equality test. *)
Definition consteq (a b : bytes) : bool := bool_decide (a = b).

(** [libnacl.public.SecretKey()]: a fresh key pair. *)
Definition SecretKey_new : M SecretKey :=
  seed ← os_urandom KEY_LENGTH;
  mret {| sk := seed; pk := crypto_scalarmult_base seed |}.

(** ** class Client *)

(** [Client(connection, path_number, initiator_key, server_key=None)]. *)
Definition Client_init (connection : nat) (path_number : Z)
    (initiator_key : bytes) (server_key : option SecretKey) : M nat :=
  r ← new_ref;
  modify (set_clients (insert r
    {| _log := "path." +:+ pretty path_number +:+ ".client";
       _connection := connection;
       _client_key := initiator_key;
       _server_key := server_key;
       _box := None;
       type := None;
       authenticated := false |}));;
  mret r.

Definition with_server_key (k : option SecretKey) (c : Client) : Client :=
  {| _log := _log c; _connection := _connection c;
     _client_key := _client_key c; _server_key := k; _box := _box c;
     type := type c; authenticated := authenticated c |}.

Definition with_box (b : option Box) (c : Client) : Client :=
  {| _log := _log c; _connection := _connection c;
     _client_key := _client_key c; _server_key := _server_key c; _box := b;
     type := type c; authenticated := authenticated c |}.

Definition with_client_key (k : bytes) (c : Client) : Client :=
  {| _log := _log c; _connection := _connection c;
     _client_key := k; _server_key := _server_key c; _box := _box c;
     type := type c; authenticated := authenticated c |}.

Definition with_log (n : string) (c : Client) : Client :=
  {| _log := n; _connection := _connection c;
     _client_key := _client_key c; _server_key := _server_key c;
     _box := _box c; type := type c; authenticated := authenticated c |}.

Definition with_type (t : option ReceiverType.t) (c : Client) : Client :=
  {| _log := _log c; _connection := _connection c;
     _client_key := _client_key c; _server_key := _server_key c;
     _box := _box c; type := t; authenticated := authenticated c |}.

Definition with_authenticated (b : bool) (c : Client) : Client :=
  {| _log := _log c; _connection := _connection c;
     _client_key := _client_key c; _server_key := _server_key c;
     _box := _box c; type := type c; authenticated := b |}.

(** The [server_key] property: created on first use. *)
Definition Client_server_key (self : nat) : M SecretKey :=
  c ← load_client self;
  match _server_key c with
  | Some k => mret k
  | None =>
      k ← SecretKey_new;
      update_client self (with_server_key (Some k));;
      mret k
  end.

(** The [box] property. *)
Definition Client_box (self : nat) : M Box :=
  c ← load_client self;
  match _box c with
  | Some b => mret b
  | None =>
      k ← Client_server_key self;
      c' ← load_client self;
      let b := {| box_sk := sk k; box_pk := _client_key c' |} in
      update_client self (with_box (Some b));;
      mret b
  end.

Definition Client_set_client_key (self : nat) (public_key : bytes) : M unit :=
  update_client self (with_client_key public_key);;
  k ← Client_server_key self;
  update_client self (with_box (Some {| box_sk := sk k; box_pk := public_key |})).

Definition Client_update_log_name (self : nat) (slot_id : Z) : M unit :=
  update_client self (fun c => with_log (_log c +:+ "." +:+ pretty slot_id) c).

Definition Client_p2p_allowed (self : nat) (receiver_type : ReceiverType.t)
    : M bool :=
  c ← load_client self;
  mret (authenticated c && negb (bool_decide (type c = Some receiver_type))).

Definition Client_send (self : nat) (message : Sendable) : M unit :=
  c ← load_client self;
  let data :=
    match message with
    | AsMessage m => pack m c
    | AsBytes b => b
    end in
  try_except (connection_send (_connection c) message data)
    on_connection_closed.

Definition Client_receive (self : nat) : M Message :=
  c ← load_client self;
  data ← try_except (connection_recv (_connection c)) on_connection_closed;
  (* Unpack data and return *)
  match data with
  | inl e => raise e
  | inr m => mret m
  end.

(** [yield from self._connection.ping()] with no [return]: the pong future
    the connection hands back is dropped. *)
Definition Client_ping (self : nat) : M unit :=
  c ← load_client self;
  _pong_future ← try_except (connection_ping (_connection c))
                   on_connection_closed;
  mret tt.

(** The names an instance of [Client] answers to: its [__slots__], its
    properties and its methods.  [__slots__] leaves no instance dictionary, so
    there are no others; [None] has none of them. *)
Definition Client_attributes : list string :=
  ["_log"; "_connection"; "_client_key"; "_server_key"; "_box"; "type";
   "authenticated"; "server_key"; "box"; "set_client_key"; "update_log_name";
   "p2p_allowed"; "send"; "receive"; "ping"].

Definition attributes_of (obj : option nat) : list string :=
  match obj with
  | Some _ => Client_attributes
  | None => []
  end.

(** [obj.close()], as [_handshake_initiator] and [_run_initiator] write it:
    the attribute is looked up first, and the lookup raises [AttributeError]
    when the object has no such name. *)
Definition Client_close (obj : option nat) : M Task :=
  if bool_decide ("close" ∈ attributes_of obj) then mret (Task_close obj)
  else raise AttributeError.

(** ** class Path *)

Definition with_slots (s : dict.t (option nat)) (p : Path) : Path :=
  {| _slots := s; log := log p; initiator_key := initiator_key p;
     number := number p |}.

(** [Path(initiator_key, number)]: slots 0x01 to 0xff, all [None]. *)
Definition Path_new (initiator_key : bytes) (number : Z) : Path :=
  {| _slots := (fun id_ => (id_, None)) <$> seqZ 0x01 0xff;
     log := "path." +:+ pretty number;
     initiator_key := initiator_key;
     number := number |}.

Definition Path_init (initiator_key : bytes) (number : Z) : M nat :=
  r ← new_ref;
  modify (set_path_objs (insert r (Path_new initiator_key number)));;
  mret r.

Definition Path_is_empty (p : Path) : bool :=
  forallb (fun client => bool_decide (client = None)) (dict.values (_slots p)).

Definition Path_empty (self : nat) : M bool :=
  p ← load_path self; mret (Path_is_empty p).

Definition Path_get_initiator (self : nat) : M (option nat) :=
  p ← load_path self; mret (dict_get 0x01 (_slots p)).

Definition Path_set_initiator (self : nat) (initiator : nat) : M (option nat) :=
  p ← load_path self;
  let previous_initiator := dict_get 0x01 (_slots p) in
  update_path self (fun p => with_slots (dict.set 0x01 (Some initiator) (_slots p)) p);;
  Client_update_log_name initiator 0x01;;
  mret previous_initiator.

Definition Path_get_responder (self : nat) (id_ : Z) : M (option nat) :=
  if negb (bool_decide (0x01 < id_) && bool_decide (id_ <= 0xff))
  then raise ValueError
  else p ← load_path self; mret (dict_get id_ (_slots p)).

Definition Path_responder_ids (p : Path) : list Z :=
  filter (fun id_ => 0x01 < id_) (dict.keys (_slots p)).

Definition Path_get_responder_ids (self : nat) : M (list Z) :=
  p ← load_path self; mret (Path_responder_ids p).

(** [for id_, client in self._slots]: iterating a dict yields its keys, and
    the target list [id_, client] unpacks each of them.  A key is an [int],
    which is not iterable: the unpacking raises [TypeError]. *)
Definition unpack_pair (item : Z) : M (Z * option nat) := raise TypeError.

Fixpoint add_responder_loop (self responder : nat) (items : list Z) : M Z :=
  match items with
  | [] => raise SlotsFullError
  | item :: rest =>
      '(id_, client) ← unpack_pair item;
      match client with
      | None =>
          update_path self
            (fun p => with_slots (dict.set id_ (Some responder) (_slots p)) p);;
          Client_update_log_name responder id_;;
          mret id_
      | Some _ => add_responder_loop self responder rest
      end
  end.

Definition Path_add_responder (self responder : nat) : M Z :=
  p ← load_path self;
  add_responder_loop self responder (dict.keys (_slots p)).

(** ** class Protocol *)

Definition PATH_LENGTH : nat := KEY_LENGTH * 2.

Definition with_path_number (n : Z) (P : Protocol) : Protocol :=
  {| _path_number := n; _paths := _paths P;
     _closed_future_done := _closed_future_done P |}.

Definition with_paths (m : gmap (list Z) nat) (P : Protocol) : Protocol :=
  {| _path_number := _path_number P; _paths := m;
     _closed_future_done := _closed_future_done P |}.

Definition _get_path (initiator_key : bytes) : M nat :=
  P ← get_protocol;
  match _paths P !! initiator_key with
  | None =>
      update_protocol (fun P => with_path_number (_path_number P + 1) P);;
      P' ← get_protocol;
      r ← Path_init initiator_key (_path_number P');
      update_protocol (fun P => with_paths (<[initiator_key := r]> (_paths P)) P)
  | Some _ => mret tt
  end;;
  P ← get_protocol;
  match _paths P !! initiator_key with
  | Some r => mret r
  | None => raise KeyError
  end.

Definition _clean_path (path : nat) : M unit :=
  e ← Path_empty path;
  if (e : bool) then
    p ← load_path path;
    P ← get_protocol;
    match _paths P !! initiator_key p with
    | Some _ =>
        update_protocol (fun P => with_paths (delete (initiator_key p) (_paths P)) P)
    | None => raise KeyError
    end
  else mret tt.

(** Fields of a [client-auth] and of a [client-hello]; another message has no
    such attribute. *)
Definition Message_server_cookie (m : Message) : M bytes :=
  match m with
  | ClientAuthMessage server_cookie _ => mret server_cookie
  | _ => raise AttributeError
  end.

Definition Message_client_cookie (m : Message) : M bytes :=
  match m with
  | ClientAuthMessage _ client_cookie => mret client_cookie
  | _ => raise AttributeError
  end.

Definition Message_client_public_key (m : Message) : M bytes :=
  match m with
  | ClientHelloMessage key => mret key
  | _ => raise AttributeError
  end.

(** [obj.send(message)] on a reference that may be [None]. *)
Definition send_to (obj : option nat) (message : Message) : M unit :=
  match obj with
  | Some c => Client_send c (AsMessage message)
  | None => raise AttributeError
  end.

Definition _handshake_initiator (path initiator : nat) (message : Message)
    (server_cookie : bytes) : M unit :=
  (* Validate cookie *)
  cookie ← Message_server_cookie message;
  if negb (consteq cookie server_cookie) then raise MessageError else
  (* Authenticated *)
  update_client initiator (with_authenticated true);;
  previous_initiator ← Path_set_initiator path initiator;
  (* Drop previous initiator *)
  coroutine ← Client_close previous_initiator;
  create_task coroutine;;
  (* Send server-auth *)
  client_cookie ← Message_client_cookie message;
  responder_ids ← Path_get_responder_ids path;
  Client_send initiator
    (AsMessage (ServerAuthMessage client_cookie (Some responder_ids))).

(** The end of [_handshake_responder], from the lookup of the initiator on:
    new-responder for the initiator, then server-auth. *)
Definition _handshake_responder_notify (path responder : nat) (id_ : Z)
    (client_cookie : bytes) : M unit :=
  (* Send new-responder message if initiator is present *)
  initiator ← Path_get_initiator path;
  match initiator with
  | Some i => create_task (Task_send i (NewResponderMessage id_))
  | None => mret tt
  end;;
  (* Send server-auth *)
  send_to initiator (ServerAuthMessage client_cookie None).

Definition _handshake_responder (path responder : nat) (message : Message)
    (server_cookie : bytes) : M unit :=
  (* Set key on client *)
  key ← Message_client_public_key message;
  Client_set_client_key responder key;;
  (* Receive client-auth *)
  message ← Client_receive responder;
  if negb (bool_decide (Message_type message = Some MessageType.client_auth))
  then raise MessageFlowError else
  (* Validate cookie *)
  cookie ← Message_server_cookie message;
  if negb (consteq cookie server_cookie) then raise MessageError else
  (* Authenticated *)
  update_client responder (with_authenticated true);;
  id_ ← Path_add_responder path responder;
  client_cookie ← Message_client_cookie message;
  _handshake_responder_notify path responder id_ client_cookie.

Definition _handshake (path client : nat) : M unit :=
  (* Send server-hello *)
  server_cookie ← os_urandom COOKIE_LENGTH;
  key ← Client_server_key client;
  Client_send client (AsMessage (ServerHelloMessage (pk key) server_cookie));;
  (* Receive client-hello or client-auth *)
  message ← Client_receive client;
  if bool_decide (Message_type message = Some MessageType.client_auth) then
    update_client client (with_type (Some ReceiverType.initiator));;
    _handshake_initiator path client message server_cookie
  else if bool_decide (Message_type message = Some MessageType.client_hello) then
    update_client client (with_type (Some ReceiverType.responder));;
    _handshake_responder path client message server_cookie
  else raise MessageFlowError.

(** [except asyncio.TimeoutError: raise PingTimeoutError(client)]. *)
Definition on_ping_timeout (e : exn) : option (M unit) :=
  match e with
  | TimeoutError => Some (raise PingTimeoutError)
  | _ => None
  end.

(** [while True]: the loop has no exit but an exception; [fuel] bounds the
    rounds that are followed. *)
Fixpoint _keep_alive (fuel : nat) (path client : nat) : M unit :=
  match fuel with
  | O => pending
  | S fuel' =>
      (* Send ping *)
      try_except (wait_for (Client_ping client) KEEP_ALIVE_TIMEOUT)
        on_ping_timeout;;
      (* Wait *)
      emit (EvSleep KEEP_ALIVE_INTERVAL);;
      _keep_alive fuel' path client
  end.

Definition _relay_message (path sender : nat) (receiver : option nat)
    (message : Message) : M unit :=
  (* Prepare message *)
  s ← load_client sender;
  let message_data := pack message s in
  let send_error_message : M unit :=
    Client_send sender
      (AsMessage (SendErrorMessage (crypto_hash_sha256 message_data))) in
  match receiver with
  | None =>
      (* Receiver not set? Send send-error *)
      send_error_message
  | Some r =>
      try_except
        (wait_for (Client_send r (AsMessage message)) RELAY_TIMEOUT)
        (fun e =>
           match e with
           | TimeoutError => Some send_error_message
           | Disconnected => Some send_error_message
           | _ => None
           end)
  end.

(** One round of the loop of [_run_initiator], after the receive. *)
Definition _run_initiator_dispatch (path initiator : nat) (message : Message)
    : M unit :=
  match message with
  | RawMessage receiver _ _ =>
      (* Relay: lookup responder, send to responder *)
      responder ← Path_get_responder path receiver;
      create_task (Task_relay_message path initiator responder message)
  | DropResponderMessage responder_id =>
      responder ← Path_get_responder path responder_id;
      match responder with
      | Some _ =>
          coroutine ← Client_close responder;
          create_task coroutine
      | None => mret tt
      end
  | _ => raise MessageFlowError
  end.

Fixpoint _run_initiator (fuel : nat) (path initiator : nat) : M unit :=
  P ← get_protocol;
  if _closed_future_done P then mret tt else
  match fuel with
  | O => pending
  | S fuel' =>
      message ← Client_receive initiator;
      _run_initiator_dispatch path initiator message;;
      _run_initiator fuel' path initiator
  end.

(** One round of the loop of [_run_responder], after the receive. *)
Definition _run_responder_dispatch (path responder : nat) (message : Message)
    : M unit :=
  match message with
  | RawMessage _ _ _ =>
      initiator ← Path_get_initiator path;
      create_task (Task_relay_message path responder initiator message)
  | _ => raise MessageFlowError
  end.

Fixpoint _run_responder (fuel : nat) (path responder : nat) : M unit :=
  P ← get_protocol;
  if _closed_future_done P then mret tt else
  match fuel with
  | O => pending
  | S fuel' =>
      message ← Client_receive responder;
      _run_responder_dispatch path responder message;;
      _run_responder fuel' path responder
  end.

(** A scheduled coroutine, when the event loop runs it.  No [Task_close] is
    ever created: [Client] has no [close] to build it from. *)
Definition run_task (t : Task) : M unit :=
  match t with
  | Task_send c m => Client_send c (AsMessage m)
  | Task_close _ => stuck
  | Task_relay_message p s r m => _relay_message p s r m
  end.

(** *** The join of the per-connection tasks *)

(** How an [asyncio.Task] has ended. *)
Inductive task_outcome : Type :=
| Returned
| Failed (e : exn)
| WasCancelled.

(** [asyncio.wait(tasks, return_when=FIRST_EXCEPTION)].  The tasks run
    interleaved on the event loop; [timeline] lists their completions in the
    order they happen, and a task that is not listed never completes.  The
    call returns when a task ends by raising, or when every task is done; it
    gives the tasks that are done and those still pending.  With an
    exhausted timeline and tasks still running it never returns. *)
Fixpoint asyncio_wait_FIRST_EXCEPTION (waiting : list nat)
    (done : list (nat * task_outcome)) (timeline : list (nat * task_outcome))
    : option (list (nat * task_outcome) * list nat) :=
  match waiting with
  | [] => Some (done, [])
  | _ :: _ =>
      match timeline with
      | [] => None
      | (task, o) :: later =>
          if bool_decide (task ∈ waiting) then
            let waiting' := filter (fun t => t ≠ task) waiting in
            let done' := done ++ [(task, o)] in
            match o with
            | Failed _ => Some (done', waiting')
            | _ => asyncio_wait_FIRST_EXCEPTION waiting' done' later
            end
          else asyncio_wait_FIRST_EXCEPTION waiting done later
      end
  end.

(** [task.exception()]: the exception of a done task, [None] if it returned;
    raises [CancelledError] if the task was cancelled. *)
Definition Task_exception (o : task_outcome) : M (option exn) :=
  match o with
  | Returned => mret None
  | Failed e => mret (Some e)
  | WasCancelled => raise CancelledError
  end.

Fixpoint cancel_all (pending_ : list nat) : M unit :=
  match pending_ with
  | [] => mret tt
  | pending_task :: rest => emit (EvCancel pending_task);; cancel_all rest
  end.

(** [for task in done: ...]: both branches of the body raise, so only the
    task the iteration yields first is looked at.  [done] comes in the order
    the set is iterated. *)
Definition join_tasks (done : list (nat * task_outcome)) (pending_ : list nat)
    : M unit :=
  match done with
  | [] => mret tt
  | (task, o) :: _ =>
      exc ← Task_exception o;
      match exc with
      | Some e =>
          (* Cancel pending tasks *)
          cancel_all pending_;;
          raise e
      | None => raise SignalingError
      end
  end.

(** *** Path strings *)

Fixpoint lstrip_slash (l : list Ascii.ascii) : list Ascii.ascii :=
  match l with
  | "/"%char :: l' => lstrip_slash l'
  | _ => l
  end.

(** [path.strip('/')]. *)
Definition strip_slash (l : list Ascii.ascii) : list Ascii.ascii :=
  rev (lstrip_slash (rev (lstrip_slash l))).

Definition hex_digit (a : Ascii.ascii) : option Z :=
  let n := Z.of_N (Ascii.N_of_ascii a) in
  if bool_decide (48 <= n <= 57) then Some (n - 48)
  else if bool_decide (97 <= n <= 102) then Some (n - 87)
  else if bool_decide (65 <= n <= 70) then Some (n - 55)
  else None.

(** The bytes of a string of hexadecimal digits, two digits to a byte;
    [None] when a character is no hexadecimal digit or the length is odd. *)
Fixpoint unhexlify_digits (l : list Ascii.ascii) : option bytes :=
  match l with
  | [] => Some []
  | a :: b :: rest =>
      hi ← hex_digit a;
      lo ← hex_digit b;
      tail ← unhexlify_digits rest;
      Some (hi * 16 + lo :: tail)
  | [_] => None
  end.

(** A character of a [str] that is in ASCII. *)
Definition is_ascii (a : Ascii.ascii) : bool :=
  bool_decide (Z.of_N (Ascii.N_of_ascii a) < 128).

(** [binascii.unhexlify] on a [str].  The argument is converted first: a
    character outside ASCII raises a plain [ValueError] before any digit is
    read.  A character that is no hexadecimal digit, or an odd length, raises
    [binascii.Error]. *)
Definition unhexlify (l : list Ascii.ascii) : exn + bytes :=
  if forallb is_ascii l then
    match unhexlify_digits l with
    | Some b => inr b
    | None => inl binascii_Error
    end
  else inl ValueError.

(** The end of [_new_connection], from [asyncio.wait] on.  Two tasks have
    been created, task 0 for the receive loop of the client's role and task 1
    for the keep-alive loop; [timeline] tells how they end, and [set_iter] is
    the order in which the set [done] is iterated. *)
Definition _new_connection_wait
    (timeline : list (nat * task_outcome))
    (set_iter : list (nat * task_outcome) -> list (nat * task_outcome))
    : M unit :=
  match asyncio_wait_FIRST_EXCEPTION [0%nat; 1%nat] [] timeline with
  | None => pending
  | Some (done, pending_) => join_tasks (set_iter done) pending_
  end.

(** [_new_connection(connection, path)]. *)
Definition _new_connection
    (timeline : list (nat * task_outcome))
    (set_iter : list (nat * task_outcome) -> list (nat * task_outcome))
    (connection : nat) (path : string) : M unit :=
  (* Extract public key from path *)
  let initiator_key := strip_slash (String.list_ascii_of_string path) in
  (* Validate key *)
  if negb (bool_decide (length initiator_key = PATH_LENGTH)) then raise PathError
  else
  match unhexlify initiator_key with
  | inl binascii_Error => raise PathError
  | inl exc => raise exc
  | inr initiator_key =>
      (* Get path instance *)
      path ← _get_path initiator_key;
      p ← load_path path;
      (* Create client instance *)
      client ← Client_init connection (number p) initiator_key None;
      (* Do handshake *)
      _handshake path client;;
      (* Keep alive and poll for messages *)
      c ← load_client client;
      match type c with
      | Some _ => mret tt
      | None => raise ValueError
      end;;
      (* Wait until complete *)
      _new_connection_wait timeline set_iter
  end.

(** ** Worlds to run the engine in *)

(** A connection in good order with the given inbound frames. *)
Definition peer (frames : list (exn + Message)) : Connection :=
  {| inbox := frames; conn_open := true; writable := true;
     answers_pings := true |}.

(** A peer that keeps the connection open but never answers a ping. *)
Definition silent_peer : Connection :=
  {| inbox := []; conn_open := true; writable := true;
     answers_pings := false |}.

(** A server that has just started: no path, no client, nothing sent. *)
Definition boot (cs : gmap nat Connection) : World :=
  {| clients := ∅; path_objs := ∅; connections := cs;
     protocol := {| _path_number := 0; _paths := ∅;
                    _closed_future_done := false |};
     scheduled := []; trace := []; next_ref := 0;
     entropy := fun n => Z.of_nat n `mod` 256; entropy_pos := 0 |}.

(** The messages handed to [Client.send], with the connection they went to. *)
Definition sent (t : list Event) : list (nat * Message) :=
  omap (fun e =>
          match e with
          | EvSend conn (AsMessage m) _ => Some (conn, m)
          | _ => None
          end) t.

Definition sent_types (t : list Event) : list (nat * option MessageType.t) :=
  (fun cm => (cm.1, Message_type cm.2)) <$> sent t.

(** The clients that occupy a slot of a path. *)
Definition occupied (p : Path) : list (Z * nat) :=
  omap (fun kv => match kv.2 with Some c => Some (kv.1, c) | None => None end)
       (_slots p).

(** The URL path of the scenarios, its key, and the cookie the server draws
    when the entropy source stands at [pos]. *)
Definition hex_path : string :=
  "/00112233445566778899aabbccddeeff00112233445566778899aabbccddeeff".

Definition path_key : bytes :=
  [0; 17; 34; 51; 68; 85; 102; 119; 136; 153; 170; 187; 204; 221; 238; 255;
   0; 17; 34; 51; 68; 85; 102; 119; 136; 153; 170; 187; 204; 221; 238; 255].

Definition cookie_at (pos : nat) : bytes :=
  (fun n => Z.of_nat n `mod` 256) <$> seq pos COOKIE_LENGTH.

(** An initiator that answers server-hello with a client-auth carrying the
    server's cookie, and a responder that sends client-hello and then a
    client-auth carrying the cookie of its own server-hello (the first
    handshake has used 16 + 32 bytes of entropy). *)
Definition good_initiator : Connection :=
  peer [inr (ClientAuthMessage (cookie_at 0) [7; 7])].

Definition good_responder : Connection :=
  peer [inr (ClientHelloMessage [9; 9]);
        inr (ClientAuthMessage (cookie_at 48) [8; 8])].

(** A second initiator for the same path, arriving after a first handshake. *)
Definition second_initiator : Connection :=
  peer [inr (ClientAuthMessage (cookie_at 48) [6; 6])].

(** An initiator whose client-auth carries a wrong cookie. *)
Definition bad_initiator : Connection :=
  peer [inr (ClientAuthMessage [] [7; 7])].

(** The world a connection leaves behind. *)
Definition after_connection (connection : nat) (w : World) : World :=
  (_new_connection [] id connection hex_path w).2.

(** The events of [rounds] rounds of the keep-alive loop. *)
Definition ping_rounds (conn : nat) (rounds : nat) : list Event :=
  concat (replicate rounds [EvPing conn; EvSleep KEEP_ALIVE_INTERVAL]).

(** Appending events to the trace. *)
Definition add_events (es : list Event) (w : World) : World :=
  set_trace (fun t => t ++ es) w.

(** A computation that never returns normally, and one that neither sends
    nor schedules anything. *)
Definition never_returns {A} (m : M A) : Prop :=
  forall w a w', m w <> (Ret a, w').

Definition silent {A} (m : M A) : Prop :=
  forall w, trace (m w).2 = trace w /\ scheduled (m w).2 = scheduled w.

(** Stand-ins for the external functions, to run the relay on: a hash that
    keeps its input recognisable and a codec that packs every structured
    message to the empty frame. *)
Definition toy_hash (b : bytes) : bytes := 255 :: b.
Definition toy_pack (m : Message) (c : Client) : bytes := [].

(** An authenticated initiator, client 1 on connection 0, in slot 0x01 of
    path 0; its connection carries the given inbound frames. *)
Definition relay_client : Client :=
  {| _log := "path.1.client.1"; _connection := 0; _client_key := path_key;
     _server_key := None; _box := None;
     type := Some ReceiverType.initiator; authenticated := true |}.

Definition relay_world (frames : list (exn + Message)) : World :=
  {| clients := {[ 1%nat := relay_client ]};
     path_objs :=
       {[ 0%nat := with_slots (dict.set 0x01 (Some 1%nat)
                                 (_slots (Path_new path_key 1)))
                     (Path_new path_key 1) ]};
     connections := {[ 0%nat := peer frames ]};
     protocol := {| _path_number := 1; _paths := {[ path_key := 0%nat ]};
                    _closed_future_done := false |};
     scheduled := []; trace := []; next_ref := 2;
     entropy := fun n => Z.of_nat n `mod` 256; entropy_pos := 48 |}.

(** The part of [_handshake] that follows the server-hello: the receive of
    the client's first message and the dispatch on its type. *)
Definition _handshake_after_hello (path client : nat) (server_cookie : bytes)
    : M unit :=
  message ← Client_receive client;
  if bool_decide (Message_type message = Some MessageType.client_auth) then
    update_client client (with_type (Some ReceiverType.initiator));;
    _handshake_initiator path client message server_cookie
  else if bool_decide (Message_type message = Some MessageType.client_hello) then
    update_client client (with_type (Some ReceiverType.responder));;
    _handshake_responder path client message server_cookie
  else raise MessageFlowError.

(** A connection with its inbound queue replaced. *)
Definition with_inbox (frames : list (exn + Message)) (k : Connection)
    : Connection :=
  {| inbox := frames; conn_open := conn_open k; writable := writable k;
     answers_pings := answers_pings k |}.

(** The world after a receive loop has read frames from connection [conn],
    leaving [rest] in its queue, and has scheduled [tasks]: nothing else
    differs from [w]. *)
Definition consumed_and_scheduled (conn : nat) (k : Connection)
    (rest : list (exn + Message)) (tasks : list Task) (w : World) : World :=
  set_scheduled (fun q => q ++ tasks)
    (set_connections (insert conn (with_inbox rest k)) w).

(** The coroutine the initiator's loop schedules for a frame it has read: for
    a relay frame addressed to a responder identifier, the relay of that very
    frame to what the addressed slot of the path holds; none for any other
    frame. *)
Definition initiator_relay (p : Path) (path initiator : nat)
    (frame : exn + Message) : option Task :=
  match frame with
  | inr (RawMessage receiver nonce data) =>
      if bool_decide (0x01 < receiver) && bool_decide (receiver <= 0xff)
      then Some (Task_relay_message path initiator
                   (dict_get receiver (_slots p))
                   (RawMessage receiver nonce data))
      else None
  | _ => None
  end.

(** The coroutine the responder's loop schedules for a frame it has read: for
    a relay frame, the relay of that very frame to what slot 0x01 holds. *)
Definition responder_relay (p : Path) (path responder : nat)
    (frame : exn + Message) : option Task :=
  match frame with
  | inr (RawMessage receiver nonce data) =>
      Some (Task_relay_message path responder (dict_get 0x01 (_slots p))
              (RawMessage receiver nonce data))
  | _ => None
  end.

(** A computation that leaves the [Protocol] instance (path counter, path
    table, shutdown flag) as it is. *)
Definition keeps_protocol {A} (m : M A) : Prop :=
  forall w, protocol (m w).2 = protocol w.

(** Stand-in for the derivation of a public key. *)
Definition toy_pk (b : bytes) : bytes := 254 :: b.

(** The path of [relay_world]: slot 0x01 holds client 1. *)
Definition relay_path : Path :=
  with_slots (dict.set 0x01 (Some 1%nat) (_slots (Path_new path_key 1)))
    (Path_new path_key 1).

(** A peer that has closed its connection, and one whose transport takes no
    more writes. *)
Definition closed_peer : Connection :=
  {| inbox := []; conn_open := false; writable := true;
     answers_pings := true |}.

Definition stalled_peer : Connection :=
  {| inbox := []; conn_open := true; writable := false;
     answers_pings := true |}.

(** [relay_world] with a second client, an authenticated responder on
    connection 1, whose connection is given. *)
Definition receiver_client : Client :=
  {| _log := "path.1.client.2"; _connection := 1; _client_key := [9; 9];
     _server_key := None; _box := None;
     type := Some ReceiverType.responder; authenticated := true |}.

Definition duo_world (k : Connection) : World :=
  set_connections (insert 1%nat k)
    (set_clients (insert 2%nat receiver_client) (relay_world [])).

(** The world with one path, freshly created and empty. *)
Definition one_path_world : World := (_get_path path_key (boot ∅)).2.

(** Two inbound queues for the receive loops: frames an initiator and a
    responder may send once they are past the handshake. *)
Definition initiator_frames : list (exn + Message) :=
  [inr (RawMessage 0x05 [1; 2] [3; 4]); inr (RawMessage 0x01 [5; 6] [7; 8])].

Definition responder_frames : list (exn + Message) :=
  [inr (RawMessage 0x01 [1; 2] [3; 4]); inr (DropResponderMessage 0x02)].

(** * Properties *)

(** ** Running the monad *)

Lemma bind_run {A B} (m : M A) (f : A -> M B) (w : World) :
  (m ≫= f) w =
  match m w with
  | (Ret a, w') => f a w'
  | (Raise e, w') => (Raise e, w')
  | (Pending, w') => (Pending, w')
  | (Stuck, w') => (Stuck, w')
  end.
Proof. reflexivity. Qed.

Lemma bind_ret {A B} (m : M A) (f : A -> M B) (w w' : World) (a : A) :
  m w = (Ret a, w') -> (m ≫= f) w = f a w'.
Proof. intros H. rewrite bind_run, H. reflexivity. Qed.

Lemma load_client_run (w : World) (c : nat) (x : Client) :
  clients w !! c = Some x -> load_client c w = (Ret x, w).
Proof. intros H. unfold load_client. rewrite H. reflexivity. Qed.

Lemma load_path_run (w : World) (p : nat) (x : Path) :
  path_objs w !! p = Some x -> load_path p w = (Ret x, w).
Proof. intros H. unfold load_path. rewrite H. reflexivity. Qed.

Lemma get_connection_run (w : World) (conn : nat) (k : Connection) :
  connections w !! conn = Some k -> get_connection conn w = (Ret k, w).
Proof. intros H. unfold get_connection. rewrite H. reflexivity. Qed.

Lemma add_events_nil (w : World) : add_events [] w = w.
Proof. destruct w. unfold add_events, set_trace. simpl. by rewrite app_nil_r. Qed.

(** A send on an open, writable connection writes the packed message. *)
Lemma Client_send_run (w : World) (self : nat) (c : Client) (k : Connection)
    (m : Message) :
  clients w !! self = Some c ->
  connections w !! _connection c = Some k ->
  conn_open k = true -> writable k = true ->
  Client_send self (AsMessage m) w =
  (Ret tt, add_events [EvSend (_connection c) (AsMessage m) (pack m c)] w).
Proof.
  intros Hc Hk Ho Hw. unfold Client_send.
  rewrite (bind_ret _ _ _ _ _ (load_client_run _ _ _ Hc)).
  unfold try_except, connection_send.
  rewrite bind_run, (get_connection_run _ _ _ Hk), Ho, Hw.
  reflexivity.
Qed.

(** A ping on an open, writable connection writes the ping frame and
    returns, whatever the peer does with it. *)
Lemma Client_ping_run (w : World) (self : nat) (c : Client) (k : Connection) :
  clients w !! self = Some c ->
  connections w !! _connection c = Some k ->
  conn_open k = true -> writable k = true ->
  Client_ping self w = (Ret tt, add_events [EvPing (_connection c)] w).
Proof.
  intros Hc Hk Ho Hw. unfold Client_ping.
  rewrite (bind_ret _ _ _ _ _ (load_client_run _ _ _ Hc)).
  rewrite bind_run. unfold try_except, connection_ping.
  rewrite bind_run, (get_connection_run _ _ _ Hk), Ho, Hw.
  reflexivity.
Qed.

(** ** Path *)

Lemma add_responder_loop_nonempty self responder item rest w :
  add_responder_loop self responder (item :: rest) w = (Raise TypeError, w).
Proof. reflexivity. Qed.

(** C3.  [add_responder] assigns no slot at all.  On a path as [Path.__init__]
    builds it, with every responder slot free, the call raises [TypeError]
    and leaves the path as it was: the loop header unpacks a dict key, an
    [int], into the pair [id_, client].  And in no world does the call return
    an identifier. *)
Theorem C3_add_responder_raises_TypeError :
  forall (key : bytes) (n : Z) (self responder : nat) (w : World),
    let w0 := set_path_objs (insert self (Path_new key n)) w in
    Path_add_responder self responder w0 = (Raise TypeError, w0)
    /\ (forall w1 id_ w2, Path_add_responder self responder w1 <> (Ret id_, w2)).
Proof.
  intros key n self responder w w0. split.
  - unfold Path_add_responder, mbind, M_bind, load_path. subst w0. simpl.
    rewrite lookup_insert_eq. reflexivity.
  - intros w1 id_ w2. unfold Path_add_responder, mbind, M_bind, load_path.
    destruct (path_objs w1 !! self) as [p|]; [|discriminate].
    destruct (dict.keys (_slots p)); discriminate.
Qed.

(** C5.  [get_responder_ids] lists every key above 0x01, occupied or not: on a
    path that holds no client at all it returns the 254 identifiers 0x02 to
    0xff, not the empty list. *)
Theorem C5_get_responder_ids_lists_free_slots :
  forall (key : bytes) (n : Z) (self : nat) (w : World),
    let w0 := set_path_objs (insert self (Path_new key n)) w in
    Path_is_empty (Path_new key n) = true
    /\ Path_get_responder_ids self w0 = (Ret (seqZ 2 254), w0)
    /\ length (seqZ 2 254) = 254%nat.
Proof.
  intros key n self w w0. split; [reflexivity|]. split; [|reflexivity].
  unfold Path_get_responder_ids, mbind, M_bind, load_path. subst w0. simpl.
  rewrite lookup_insert_eq. reflexivity.
Qed.

(** C9.  A [Client] has no [close]: the call the engine writes,
    [client.close()], raises [AttributeError] on every client (and on [None])
    and closes nothing. *)
Theorem C9_Client_has_no_close :
  forall (obj : option nat) (w : World),
    Client_close obj w = (Raise AttributeError, w).
Proof. intros [c|] w; reflexivity. Qed.

(** ** Keep-alive *)

Lemma keep_alive_rounds (path client : nat) (c : Client) (k : Connection)
    (fuel : nat) :
  forall w : World,
    clients w !! client = Some c ->
    connections w !! _connection c = Some k ->
    conn_open k = true -> writable k = true ->
    _keep_alive fuel path client w =
    (Pending, add_events (ping_rounds (_connection c) fuel) w).
Proof.
  induction fuel as [|fuel IH]; intros w Hc Hk Ho Hw.
  - simpl. unfold ping_rounds. simpl. by rewrite add_events_nil.
  - simpl. rewrite bind_run. unfold try_except, wait_for.
    rewrite (Client_ping_run _ _ _ _ Hc Hk Ho Hw).
    rewrite bind_run. simpl.
    rewrite IH by assumption.
    unfold ping_rounds. simpl. f_equal.
    unfold add_events, set_trace. simpl. f_equal.
    by rewrite <- !app_assoc.
Qed.

(** When the transport is stalled, so that the ping frame itself cannot be
    written in time, the loop does raise [PingTimeoutError]. *)
Lemma keep_alive_write_stalled (path client : nat) (c : Client)
    (k : Connection) (fuel : nat) (w : World) :
  clients w !! client = Some c ->
  connections w !! _connection c = Some k ->
  conn_open k = true -> writable k = false ->
  _keep_alive (S fuel) path client w = (Raise PingTimeoutError, w).
Proof.
  intros Hc Hk Ho Hw. simpl. rewrite bind_run.
  unfold try_except at 1. unfold wait_for, Client_ping.
  rewrite (bind_ret _ _ _ _ _ (load_client_run _ _ _ Hc)).
  rewrite bind_run. unfold try_except, connection_ping.
  rewrite bind_run, (get_connection_run _ _ _ Hk), Ho, Hw.
  reflexivity.
Qed.

(** C7.  The keep-alive loop does not wait for the pong.  With a peer that
    keeps its connection open and never answers a ping, the loop goes on for
    as many rounds as one follows it, a ping and a sleep of the keep-alive
    interval each, and raises no [PingTimeoutError]. *)
Theorem C7_keep_alive_ignores_missing_pong :
  forall (w : World) (path client : nat) (c : Client) (fuel : nat),
    let w0 := set_connections (insert (_connection c) silent_peer)
                (set_clients (insert client c) w) in
    answers_pings silent_peer = false
    /\ _keep_alive fuel path client w0 =
       (Pending, add_events (ping_rounds (_connection c) fuel) w0).
Proof.
  intros w path client c fuel w0. split; [reflexivity|].
  apply keep_alive_rounds with (k := silent_peer); subst w0; simpl;
    try reflexivity; apply lookup_insert_eq.
Qed.

(** ** Relay *)

(** C8.  A relay frame whose receiver was looked up as [None]: the relay
    coroutine is one send, to the sender, of a send-error that carries the
    SHA-256 hash of the wire bytes of the frame, its nonce followed by its
    ciphertext.  On a sender whose connection is in good order the world
    changes by that one frame on the sender's connection; nothing goes to
    any other connection. *)
Theorem C8_relay_without_receiver_sends_send_error :
  forall (w : World) (path sender : nat) (s : Client) (k : Connection)
         (receiver : Z) (nonce data : bytes),
    clients w !! sender = Some s ->
    connections w !! _connection s = Some k ->
    let message := RawMessage receiver nonce data in
    let error := SendErrorMessage (crypto_hash_sha256 (nonce ++ data)) in
    _relay_message path sender None message w =
      Client_send sender (AsMessage error) w
    /\ (conn_open k = true -> writable k = true ->
        _relay_message path sender None message w =
          (Ret tt,
           add_events [EvSend (_connection s) (AsMessage error) (pack error s)] w)).
Proof.
  intros w path sender s k receiver nonce data Hc Hk message error.
  assert (Heq : _relay_message path sender None message w =
                Client_send sender (AsMessage error) w).
  { unfold _relay_message.
    rewrite (bind_ret _ _ _ _ _ (load_client_run _ _ _ Hc)). reflexivity. }
  split; [exact Heq|].
  intros Ho Hw. rewrite Heq. by apply Client_send_run with (k := k).
Qed.

(** The initiator's loop reaches that case for every responder identifier
    whose slot is free: the relay is scheduled with receiver [None]. *)
Lemma run_initiator_dispatch_free_slot (w : World) (path initiator : nat)
    (p : Path) (receiver : Z) (nonce data : bytes) :
  path_objs w !! path = Some p ->
  0x01 < receiver <= 0xff ->
  dict_get receiver (_slots p) = None ->
  _run_initiator_dispatch path initiator (RawMessage receiver nonce data) w =
  (Ret tt,
   set_scheduled
     (fun q => q ++ [Task_relay_message path initiator None
                       (RawMessage receiver nonce data)]) w).
Proof.
  intros Hp [Hlo Hhi] Hfree. unfold _run_initiator_dispatch, Path_get_responder.
  rewrite !bool_decide_eq_true_2 by assumption. simpl.
  rewrite bind_run, (bind_ret _ _ _ _ _ (load_path_run _ _ _ Hp)).
  unfold mret, M_ret. rewrite Hfree. reflexivity.
Qed.

(** And so does the responder's loop when no initiator is on the path. *)
Lemma run_responder_dispatch_no_initiator (w : World) (path responder : nat)
    (p : Path) (receiver : Z) (nonce data : bytes) :
  path_objs w !! path = Some p ->
  dict_get 0x01 (_slots p) = None ->
  _run_responder_dispatch path responder (RawMessage receiver nonce data) w =
  (Ret tt,
   set_scheduled
     (fun q => q ++ [Task_relay_message path responder None
                       (RawMessage receiver nonce data)]) w).
Proof.
  intros Hp Hfree. unfold _run_responder_dispatch, Path_get_initiator.
  rewrite bind_run, (bind_ret _ _ _ _ _ (load_path_run _ _ _ Hp)).
  unfold mret, M_ret. rewrite Hfree. reflexivity.
Qed.

(** ** The receive loop of the initiator *)

Lemma Client_receive_run (w : World) (self : nat) (c : Client)
    (k : Connection) (m : Message) (rest : list (exn + Message)) :
  clients w !! self = Some c ->
  connections w !! _connection c = Some k ->
  inbox k = inr m :: rest ->
  Client_receive self w =
  (Ret m,
   set_connections (insert (_connection c)
     {| inbox := rest; conn_open := conn_open k; writable := writable k;
        answers_pings := answers_pings k |}) w).
Proof.
  intros Hc Hk Hin. unfold Client_receive.
  rewrite (bind_ret _ _ _ _ _ (load_client_run _ _ _ Hc)).
  rewrite bind_run. unfold try_except, connection_recv.
  rewrite bind_run, (get_connection_run _ _ _ Hk), Hin.
  reflexivity.
Qed.

(** C10.  A relay frame addressed to 0x01 that reaches the initiator's
    receive loop: [get_responder(0x01)] raises [ValueError], which leaves the
    loop.  Nothing is sent and no relay is scheduled (so no send-error), the
    exception is not a [MessageFlowError], and the join of the connection's
    tasks cancels the keep-alive task and raises the [ValueError] again. *)
Theorem C10_relay_to_initiator_slot_raises_ValueError :
  forall (w : World) (path initiator fuel : nat) (c : Client) (k : Connection)
         (nonce data : bytes) (rest : list (exn + Message))
         (later : list (nat * task_outcome)),
    _closed_future_done (protocol w) = false ->
    clients w !! initiator = Some c ->
    connections w !! _connection c = Some k ->
    inbox k = inr (RawMessage 0x01 nonce data) :: rest ->
    let w' := set_connections (insert (_connection c)
                {| inbox := rest; conn_open := conn_open k;
                   writable := writable k;
                   answers_pings := answers_pings k |}) w in
    _run_initiator (S fuel) path initiator w = (Raise ValueError, w')
    /\ trace w' = trace w
    /\ scheduled w' = scheduled w
    /\ _new_connection_wait ((0%nat, Failed ValueError) :: later) id w' =
       (Raise ValueError, add_events [EvCancel 1] w').
Proof.
  intros w path initiator fuel c k nonce data rest later Hopen Hc Hk Hin w'.
  split; [|split; [reflexivity|split; reflexivity]].
  simpl. rewrite bind_run. unfold get_protocol. rewrite Hopen.
  rewrite bind_run, (Client_receive_run _ _ _ _ _ _ Hc Hk Hin).
  reflexivity.
Qed.

(** ** The handshake *)

Lemma never_returns_raise {A} (e : exn) : never_returns (@raise A e).
Proof. intros w a w'. discriminate. Qed.

Lemma never_returns_bind_l {A B} (m : M A) (f : A -> M B) :
  never_returns m -> never_returns (m ≫= f).
Proof.
  intros Hm w b w'. rewrite bind_run.
  destruct (m w) as [[a|e| |] w1] eqn:E; try discriminate.
  exfalso. exact (Hm _ _ _ E).
Qed.

Lemma never_returns_bind_r {A B} (m : M A) (f : A -> M B) :
  (forall a, never_returns (f a)) -> never_returns (m ≫= f).
Proof.
  intros Hf w b w'. rewrite bind_run.
  destruct (m w) as [[a|e| |] w1] eqn:E; try discriminate.
  apply Hf.
Qed.

Lemma silent_ret {A} (a : A) : silent (mret a : M A).
Proof. intros w. split; reflexivity. Qed.

Lemma silent_raise {A} (e : exn) : silent (@raise A e).
Proof. intros w. split; reflexivity. Qed.

Lemma silent_bind {A B} (m : M A) (f : A -> M B) :
  silent m -> (forall a, silent (f a)) -> silent (m ≫= f).
Proof.
  intros Hm Hf w. rewrite bind_run. specialize (Hm w).
  destruct (m w) as [[a|e| |] w1] eqn:E; simpl in Hm; try exact Hm.
  destruct (Hf a w1) as [Ht Hs]. destruct Hm as [Ht' Hs'].
  split; congruence.
Qed.

Lemma silent_load_client c : silent (load_client c).
Proof. intros w. unfold load_client. destruct (clients w !! c); split; reflexivity. Qed.

Lemma silent_update_client c f : silent (update_client c f).
Proof. intros w. unfold update_client. destruct (clients w !! c); split; reflexivity. Qed.

Lemma silent_load_path p : silent (load_path p).
Proof. intros w. unfold load_path. destruct (path_objs w !! p); split; reflexivity. Qed.

Lemma silent_update_path p f : silent (update_path p f).
Proof. intros w. unfold update_path. destruct (path_objs w !! p); split; reflexivity. Qed.

Lemma silent_os_urandom n : silent (os_urandom n).
Proof. intros w. split; reflexivity. Qed.

Lemma silent_connection_recv conn :
  silent (try_except (connection_recv conn) on_connection_closed).
Proof.
  intros w. unfold try_except, connection_recv, get_connection.
  rewrite bind_run.
  destruct (connections w !! conn) as [k|]; [|split; reflexivity].
  destruct (inbox k); [destruct (conn_open k)|]; split; reflexivity.
Qed.

Create HintDb engine.

#[local] Hint Resolve silent_ret silent_raise silent_load_client
  silent_update_client silent_load_path silent_update_path silent_os_urandom
  silent_connection_recv : engine.

Ltac case_if :=
  match goal with
  | |- context [if ?b then _ else _] => destruct b eqn:?
  end.

Ltac silent_steps :=
  repeat first
    [ progress auto with engine
    | apply silent_bind; [|intros ?; cbv beta]
    | case_match
    | case_if ].

Ltac after_bind := apply never_returns_bind_r; intros ?; cbv beta.
Ltac silent_bind_with H := apply silent_bind; [H|intros ?; cbv beta].

Lemma silent_Client_server_key self : silent (Client_server_key self).
Proof. unfold Client_server_key, SecretKey_new. silent_steps. Qed.

Lemma silent_Client_set_client_key self key :
  silent (Client_set_client_key self key).
Proof.
  unfold Client_set_client_key. pose proof silent_Client_server_key.
  silent_steps.
Qed.

Lemma silent_Client_receive self : silent (Client_receive self).
Proof. unfold Client_receive. silent_steps. Qed.

Lemma silent_Client_update_log_name self id_ :
  silent (Client_update_log_name self id_).
Proof. unfold Client_update_log_name. silent_steps. Qed.

Lemma silent_Path_set_initiator self initiator :
  silent (Path_set_initiator self initiator).
Proof.
  unfold Path_set_initiator. pose proof silent_Client_update_log_name.
  silent_steps.
Qed.

Lemma silent_Path_add_responder self responder :
  silent (Path_add_responder self responder).
Proof.
  unfold Path_add_responder. apply silent_bind; [auto with engine|].
  intros p. destruct (dict.keys (_slots p)); intros w; split; reflexivity.
Qed.

Lemma never_returns_Path_add_responder self responder :
  never_returns (Path_add_responder self responder).
Proof.
  unfold Path_add_responder. apply never_returns_bind_r. intros p.
  destruct (dict.keys (_slots p)); intros w a w'; discriminate.
Qed.

Lemma never_returns_Client_close obj : never_returns (Client_close obj).
Proof. intros w a w'. destruct obj; discriminate. Qed.

Lemma silent_Client_close obj : silent (Client_close obj).
Proof. intros w. destruct obj; split; reflexivity. Qed.

Lemma never_returns_handshake_initiator path initiator message server_cookie :
  never_returns (_handshake_initiator path initiator message server_cookie).
Proof.
  unfold _handshake_initiator. after_bind.
  case_if; [apply never_returns_raise|].
  do 2 after_bind.
  apply never_returns_bind_l, never_returns_Client_close.
Qed.

Lemma silent_handshake_initiator path initiator message server_cookie :
  silent (_handshake_initiator path initiator message server_cookie).
Proof.
  unfold _handshake_initiator.
  silent_bind_with ltac:(destruct message; simpl; auto with engine).
  case_if; [auto with engine|].
  silent_bind_with ltac:(auto with engine).
  silent_bind_with ltac:(apply silent_Path_set_initiator).
  intros w. rewrite bind_run.
  match goal with previous : option nat |- _ => destruct previous end;
    split; reflexivity.
Qed.

Lemma never_returns_handshake_responder path responder message server_cookie :
  never_returns (_handshake_responder path responder message server_cookie).
Proof.
  unfold _handshake_responder.
  do 3 after_bind.
  case_if; [apply never_returns_raise|].
  after_bind.
  case_if; [apply never_returns_raise|].
  after_bind.
  apply never_returns_bind_l, never_returns_Path_add_responder.
Qed.

Lemma silent_handshake_responder path responder message server_cookie :
  silent (_handshake_responder path responder message server_cookie).
Proof.
  unfold _handshake_responder.
  silent_bind_with ltac:(destruct message; simpl; auto with engine).
  silent_bind_with ltac:(apply silent_Client_set_client_key).
  silent_bind_with ltac:(apply silent_Client_receive).
  case_if; [auto with engine|].
  silent_bind_with
    ltac:(match goal with m : Message |- silent (Message_server_cookie ?x) =>
            destruct x end; simpl; auto with engine).
  case_if; [auto with engine|].
  silent_bind_with ltac:(auto with engine).
  intros w. rewrite bind_run.
  pose proof (silent_Path_add_responder path responder w) as Hs.
  pose proof (never_returns_Path_add_responder path responder w) as Hn.
  destruct (Path_add_responder path responder w) as [[id_|e| |] w1]; try exact Hs.
  exfalso. exact (Hn _ _ eq_refl).
Qed.

(** No handshake completes. *)
Lemma never_returns_handshake path client : never_returns (_handshake path client).
Proof.
  unfold _handshake. do 4 after_bind.
  repeat case_if.
  - after_bind. apply never_returns_handshake_initiator.
  - after_bind. apply never_returns_handshake_responder.
  - apply never_returns_raise.
Qed.

(** What the end of the responder handshake would do if [add_responder]
    had assigned [id_]: with an initiator on the path, new-responder is
    scheduled for it and server-auth is then written to the initiator's
    connection, not to the responder's. *)
Lemma handshake_responder_notify_sends_to_initiator (w : World)
    (path responder i : nat) (p : Path) (c : Client) (k : Connection)
    (id_ : Z) (client_cookie : bytes) :
  path_objs w !! path = Some p ->
  dict_get 0x01 (_slots p) = Some i ->
  clients w !! i = Some c ->
  connections w !! _connection c = Some k ->
  conn_open k = true -> writable k = true ->
  _handshake_responder_notify path responder id_ client_cookie w =
  (Ret tt,
   add_events
     [EvSend (_connection c) (AsMessage (ServerAuthMessage client_cookie None))
        (pack (ServerAuthMessage client_cookie None) c)]
     (set_scheduled (fun q => q ++ [Task_send i (NewResponderMessage id_)]) w)).
Proof.
  intros Hp Hi Hc Hk Ho Hw. unfold _handshake_responder_notify, Path_get_initiator.
  rewrite bind_run, (bind_ret _ _ _ _ _ (load_path_run _ _ _ Hp)).
  unfold mret at 1, M_ret at 1. rewrite Hi, bind_run. unfold create_task, send_to.
  by rewrite (Client_send_run _ i c k).
Qed.

(** Without an initiator the same code calls [send] on [None]. *)
Lemma handshake_responder_notify_without_initiator (w : World)
    (path responder : nat) (p : Path) (id_ : Z) (client_cookie : bytes) :
  path_objs w !! path = Some p ->
  dict_get 0x01 (_slots p) = None ->
  _handshake_responder_notify path responder id_ client_cookie w =
  (Raise AttributeError, w).
Proof.
  intros Hp Hi. unfold _handshake_responder_notify, Path_get_initiator.
  rewrite bind_run, (bind_ret _ _ _ _ _ (load_path_run _ _ _ Hp)).
  unfold mret at 1, M_ret at 1. rewrite Hi. reflexivity.
Qed.

(** C1.  No responder handshake sends server-auth.  In every world
    [_handshake_responder] ends without returning and has neither sent nor
    scheduled anything: once the cookie is validated, [add_responder] raises.
    In the scenario, an initiator sits in slot 0x01 and a responder presents
    the right cookie: its connection ends with [TypeError], the only frames
    written are the two server-hello, no new-responder is scheduled. *)
Theorem C1_responder_handshake_sends_no_server_auth :
  (forall path responder message server_cookie,
      never_returns (_handshake_responder path responder message server_cookie)
      /\ silent (_handshake_responder path responder message server_cookie))
  /\ (let w0 := boot {[ 0%nat := good_initiator; 1%nat := good_responder ]} in
      let w1 := after_connection 0 w0 in
      let r := _new_connection [] id 1 hex_path w1 in
      (occupied <$> path_objs w1 !! 0%nat) = Some [(0x01, 1%nat)]
      /\ r.1 = Raise TypeError
      /\ sent_types (trace r.2) =
           [(0%nat, Some MessageType.server_hello);
            (1%nat, Some MessageType.server_hello)]
      /\ scheduled r.2 = []
      /\ (authenticated <$> clients r.2 !! 2%nat) = Some true).
Proof.
  split.
  - intros. split.
    + apply never_returns_handshake_responder.
    + apply silent_handshake_responder.
  - vm_compute. repeat split; reflexivity.
Qed.

(** C2.  No initiator handshake sends server-auth.  In every world
    [_handshake_initiator] ends without returning and has neither sent nor
    scheduled anything: with a valid cookie it stops at
    [previous_initiator.close()], whether slot 0x01 was occupied or not.  In
    the first scenario the first initiator of a path presents the right
    cookie: its connection ends with [AttributeError] after the server-hello,
    nothing is scheduled, and the client stays in slot 0x01.  In the second a
    further initiator arrives on the occupied path: it takes slot 0x01 and
    its connection ends the same way, with no closure scheduled and no
    server-auth. *)
Theorem C2_initiator_handshake_stops_at_close :
  (forall path initiator message server_cookie,
      never_returns (_handshake_initiator path initiator message server_cookie)
      /\ silent (_handshake_initiator path initiator message server_cookie))
  /\ (let w0 := boot {[ 0%nat := good_initiator ]} in
      let r := _new_connection [] id 0 hex_path w0 in
      r.1 = Raise AttributeError
      /\ sent_types (trace r.2) = [(0%nat, Some MessageType.server_hello)]
      /\ scheduled r.2 = []
      /\ (occupied <$> path_objs r.2 !! 0%nat) = Some [(0x01, 1%nat)])
  /\ (let w0 := boot {[ 0%nat := good_initiator; 1%nat := second_initiator ]} in
      let w1 := after_connection 0 w0 in
      let r := _new_connection [] id 1 hex_path w1 in
      r.1 = Raise AttributeError
      /\ sent_types (trace r.2) =
           [(0%nat, Some MessageType.server_hello);
            (1%nat, Some MessageType.server_hello)]
      /\ scheduled r.2 = []
      /\ (occupied <$> path_objs r.2 !! 0%nat) = Some [(0x01, 2%nat)]).
Proof.
  split; [|split].
  - intros. split.
    + apply never_returns_handshake_initiator.
    + apply silent_handshake_initiator.
  - vm_compute. repeat split; reflexivity.
  - vm_compute. repeat split; reflexivity.
Qed.

(** ** Teardown *)

(** [_clean_path] does delete an empty path from the table. *)
Lemma clean_path_deletes_empty (w : World) (path r : nat) (p : Path) :
  path_objs w !! path = Some p ->
  Path_is_empty p = true ->
  _paths (protocol w) !! initiator_key p = Some r ->
  exists w', _clean_path path w = (Ret tt, w')
             /\ _paths (protocol w') !! initiator_key p = None.
Proof.
  intros Hp He Hr. unfold _clean_path, Path_empty.
  rewrite bind_run, (bind_ret _ _ _ _ _ (load_path_run _ _ _ Hp)).
  unfold mret at 1, M_ret at 1. rewrite He.
  rewrite (bind_ret _ _ _ _ _ (load_path_run _ _ _ Hp)).
  rewrite bind_run. unfold get_protocol. rewrite Hr.
  eexists. split; [reflexivity|]. simpl. apply lookup_delete_eq.
Qed.

(** The join touches neither the slots of a path nor the path table. *)
Lemma cancel_all_keeps_paths (pending_ : list nat) (w : World) :
  exists w', cancel_all pending_ w = (Ret tt, w')
             /\ path_objs w' = path_objs w /\ protocol w' = protocol w.
Proof.
  revert w. induction pending_ as [|t rest IH]; intros w.
  - exists w. repeat split.
  - simpl. rewrite bind_run. unfold emit.
    destruct (IH (set_trace (fun t0 => t0 ++ [EvCancel t]) w))
      as (w' & Hrun & Hp & Hq).
    exists w'. repeat split; assumption.
Qed.

Lemma new_connection_wait_keeps_paths (timeline : list (nat * task_outcome))
    (set_iter : list (nat * task_outcome) -> list (nat * task_outcome))
    (w : World) :
  path_objs (_new_connection_wait timeline set_iter w).2 = path_objs w
  /\ protocol (_new_connection_wait timeline set_iter w).2 = protocol w.
Proof.
  unfold _new_connection_wait.
  destruct (asyncio_wait_FIRST_EXCEPTION [0%nat; 1%nat] [] timeline)
    as [[done pending_]|]; [|split; reflexivity].
  unfold join_tasks. destruct (set_iter done) as [|[task o] ?];
    [split; reflexivity|].
  rewrite bind_run. destruct o as [|e|]; simpl; try (split; reflexivity).
  rewrite bind_run.
  destruct (cancel_all_keeps_paths pending_ w) as (w' & Hrun & Hp & Hq).
  rewrite Hrun. simpl. split; assumption.
Qed.

(** C4.  [_new_connection] ends without any teardown: it never calls
    [_clean_path], and nothing takes a client out of its slot.  However the
    two tasks of a connection end, the join leaves the slots and the path
    table as they were.  So an initiator that is alone on its path and whose
    receive loop ends with [Disconnected] is still in slot 0x01 afterwards,
    and its path still in the table.  Likewise a connection whose client-auth
    carries a wrong cookie ends with [MessageError] and leaves the path it
    created, empty, in the path table. *)
Theorem C4_connection_end_leaves_path_and_slot :
  (forall timeline set_iter w,
      path_objs (_new_connection_wait timeline set_iter w).2 = path_objs w
      /\ protocol (_new_connection_wait timeline set_iter w).2 = protocol w)
  /\ (let r := _new_connection_wait [(0%nat, Failed Disconnected)] id
                 (relay_world []) in
      r.1 = Raise Disconnected
      /\ _paths (protocol r.2) !! path_key = Some 0%nat
      /\ (occupied <$> path_objs r.2 !! 0%nat) = Some [(0x01, 1%nat)])
  /\ (let w0 := boot {[ 0%nat := bad_initiator ]} in
      let r := _new_connection [] id 0 hex_path w0 in
      r.1 = Raise MessageError
      /\ _paths (protocol r.2) !! path_key = Some 0%nat
      /\ (Path_is_empty <$> path_objs r.2 !! 0%nat) = Some true).
Proof.
  split; [apply new_connection_wait_keeps_paths|].
  vm_compute. repeat split; reflexivity.
Qed.

(** ** The join of the tasks *)

(** The first task to end by raising stops the wait: the other task is
    cancelled and the exception is raised again. *)
Lemma wait_first_raises (w : World) (e : exn)
    (later : list (nat * task_outcome)) :
  _new_connection_wait ((0%nat, Failed e) :: later) id w =
    (Raise e, add_events [EvCancel 1] w)
  /\ _new_connection_wait ((1%nat, Failed e) :: later) id w =
    (Raise e, add_events [EvCancel 0] w).
Proof. split; reflexivity. Qed.


(** * Further properties of the engine *)

(** ** The slot table *)

Lemma dict_lookup_set_eq {V} (k : Z) (v : V) (d : dict.t V) :
  dict.lookup k (dict.set k v d) = Some v.
Proof.
  induction d as [|[k' v'] d IH]; simpl.
  - by rewrite bool_decide_eq_true_2.
  - destruct (bool_decide (k' = k)) eqn:E; simpl.
    + by rewrite bool_decide_eq_true_2.
    + by rewrite E.
Qed.

Lemma dict_lookup_set_ne {V} (k k0 : Z) (v : V) (d : dict.t V) :
  k <> k0 -> dict.lookup k0 (dict.set k v d) = dict.lookup k0 d.
Proof.
  intros Hne. induction d as [|[k' v'] d IH]; simpl.
  - by rewrite bool_decide_eq_false_2.
  - destruct (bool_decide (k' = k)) eqn:E; simpl.
    + apply bool_decide_eq_true_1 in E. subst k'.
      by rewrite !bool_decide_eq_false_2.
    + by rewrite IH.
Qed.

Lemma dict_keys_set_present {V} (k : Z) (v : V) (d : dict.t V) :
  k ∈ dict.keys d -> dict.keys (dict.set k v d) = dict.keys d.
Proof.
  unfold dict.keys. induction d as [|[k' v'] d IH]; simpl; intros Hin.
  - by apply elem_of_nil in Hin.
  - destruct (bool_decide (k' = k)) eqn:E; simpl.
    + apply bool_decide_eq_true_1 in E. by subst k'.
    + apply bool_decide_eq_false_1 in E. f_equal. apply IH.
      apply elem_of_cons in Hin as [Heq|Hin]; [congruence|exact Hin].
Qed.

Lemma dict_occupied_not_empty (k : Z) (c : nat) (d : dict.t (option nat)) :
  dict.lookup k d = Some (Some c) ->
  forallb (fun client => bool_decide (client = None)) (dict.values d) = false.
Proof.
  unfold dict.values. induction d as [|[k' v'] d IH]; [discriminate|].
  rewrite fmap_cons. cbn [dict.lookup forallb snd].
  destruct (bool_decide (k' = k)) eqn:E.
  - intros [= ->]. reflexivity.
  - intros H. rewrite (IH H). apply andb_false_r.
Qed.

(** [set_initiator] on a path and a client that exist. *)
Lemma Path_set_initiator_run (w : World) (self initiator : nat) (p : Path)
    (c : Client) :
  path_objs w !! self = Some p ->
  clients w !! initiator = Some c ->
  Path_set_initiator self initiator w =
  (Ret (dict_get 0x01 (_slots p)),
   set_clients (insert initiator (with_log (_log c +:+ "." +:+ pretty 0x01) c))
     (set_path_objs
        (insert self (with_slots (dict.set 0x01 (Some initiator) (_slots p)) p))
        w)).
Proof.
  intros Hp Hc. unfold Path_set_initiator.
  rewrite (bind_ret _ _ _ _ _ (load_path_run _ _ _ Hp)).
  rewrite bind_run. unfold update_path. rewrite Hp.
  rewrite bind_run. unfold Client_update_log_name, update_client. simpl.
  rewrite Hc. reflexivity.
Qed.

(** X1.  [set_initiator] then [get_initiator]: the call returns the previous
    occupant of slot 0x01, afterwards [get_initiator] gives the new client,
    the path is not empty, and every responder slot reads as before. *)
Theorem set_initiator_then_get_initiator :
  forall (w : World) (self initiator : nat) (p : Path) (c : Client),
    path_objs w !! self = Some p ->
    clients w !! initiator = Some c ->
    exists w',
      Path_set_initiator self initiator w = (Ret (dict_get 0x01 (_slots p)), w')
      /\ Path_get_initiator self w = (Ret (dict_get 0x01 (_slots p)), w)
      /\ Path_get_initiator self w' = (Ret (Some initiator), w')
      /\ Path_empty self w' = (Ret false, w')
      /\ (forall id_, (Path_get_responder self id_ w').1 =
                      (Path_get_responder self id_ w).1).
Proof.
  intros w self initiator p c Hp Hc.
  eexists. split; [apply Path_set_initiator_run; eassumption|].
  set (p' := with_slots (dict.set 1 (Some initiator) (_slots p)) p).
  set (w' := set_clients _ _).
  assert (Hp' : path_objs w' !! self = Some p')
    by (subst w'; simpl; apply lookup_insert_eq).
  split; [|split; [|split]].
  - unfold Path_get_initiator.
    by rewrite (bind_ret _ _ _ _ _ (load_path_run _ _ _ Hp)).
  - unfold Path_get_initiator.
    rewrite (bind_ret _ _ _ _ _ (load_path_run _ _ _ Hp')).
    unfold dict_get. subst p'. simpl. by rewrite dict_lookup_set_eq.
  - unfold Path_empty.
    rewrite (bind_ret _ _ _ _ _ (load_path_run _ _ _ Hp')).
    unfold Path_is_empty. subst p'. cbn [_slots with_slots].
    rewrite (dict_occupied_not_empty 1 initiator);
      [reflexivity|apply dict_lookup_set_eq].
  - intros id_. unfold Path_get_responder.
    destruct (bool_decide (1 < id_)) eqn:E; [|reflexivity].
    destruct (bool_decide (id_ <= 255)); [|reflexivity]. simpl.
    rewrite (bind_ret _ _ _ _ _ (load_path_run _ _ _ Hp')).
    rewrite (bind_ret _ _ _ _ _ (load_path_run _ _ _ Hp)).
    apply bool_decide_eq_true_1 in E.
    unfold dict_get. subst p'. simpl.
    rewrite dict_lookup_set_ne by lia. reflexivity.
Qed.

(** X2.  [set_initiator] keeps the keys of the slot table: on a path whose
    keys are 0x01 to 0xff they still are afterwards, so [get_responder_ids]
    gives the same 254 identifiers before and after. *)
Theorem set_initiator_keeps_slot_keys :
  forall (w : World) (self initiator : nat) (p : Path) (c : Client),
    path_objs w !! self = Some p ->
    clients w !! initiator = Some c ->
    dict.keys (_slots p) = seqZ 0x01 0xff ->
    exists w' p',
      (Path_set_initiator self initiator w).2 = w'
      /\ path_objs w' !! self = Some p'
      /\ dict.keys (_slots p') = seqZ 0x01 0xff
      /\ Path_get_responder_ids self w = (Ret (seqZ 0x02 254), w)
      /\ Path_get_responder_ids self w' = (Ret (seqZ 0x02 254), w').
Proof.
  intros w self initiator p c Hp Hc Hkeys.
  rewrite (Path_set_initiator_run _ _ _ _ _ Hp Hc). simpl.
  set (p' := with_slots (dict.set 1 (Some initiator) (_slots p)) p).
  set (w' := set_clients _ _).
  assert (Hp' : path_objs w' !! self = Some p')
    by (subst w'; simpl; apply lookup_insert_eq).
  assert (Hkeys' : dict.keys (_slots p') = seqZ 1 255).
  { subst p'. simpl. rewrite dict_keys_set_present; [exact Hkeys|].
    rewrite Hkeys. by vm_compute; left. }
  exists w', p'. split; [reflexivity|]. split; [exact Hp'|].
  split; [exact Hkeys'|]. split.
  - unfold Path_get_responder_ids.
    rewrite (bind_ret _ _ _ _ _ (load_path_run _ _ _ Hp)).
    unfold Path_responder_ids. rewrite Hkeys. reflexivity.
  - unfold Path_get_responder_ids.
    rewrite (bind_ret _ _ _ _ _ (load_path_run _ _ _ Hp')).
    unfold Path_responder_ids. rewrite Hkeys'. reflexivity.
Qed.

(** X3.  [get_responder] raises [ValueError] exactly for the identifiers
    outside 0x02 to 0xff, without touching the world; inside that range it
    returns the content of the slot. *)
Theorem get_responder_bounds :
  forall (w : World) (self : nat) (p : Path) (id_ : Z),
    path_objs w !! self = Some p ->
    (~ (0x01 < id_ <= 0xff) ->
       Path_get_responder self id_ w = (Raise ValueError, w))
    /\ (0x01 < id_ <= 0xff ->
        Path_get_responder self id_ w = (Ret (dict_get id_ (_slots p)), w)).
Proof.
  intros w self p id_ Hp. unfold Path_get_responder. split; intros H.
  - destruct (bool_decide (1 < id_)) eqn:E1;
      destruct (bool_decide (id_ <= 255)) eqn:E2; try reflexivity.
    apply bool_decide_eq_true_1 in E1, E2. lia.
  - destruct H as [H1 H2]. rewrite !bool_decide_eq_true_2 by assumption.
    simpl. by rewrite (bind_ret _ _ _ _ _ (load_path_run _ _ _ Hp)).
Qed.

(** ** The path table *)

(** Simplification that leaves the operations of finite maps folded. *)
Ltac map_simpl := with_strategy opaque [insert lookup delete] simpl.

Lemma get_path_present (w : World) (key : bytes) (r : nat) :
  _paths (protocol w) !! key = Some r -> _get_path key w = (Ret r, w).
Proof.
  intros H. unfold _get_path. rewrite bind_run. unfold get_protocol.
  rewrite H. rewrite bind_run. unfold mret at 1, M_ret at 1.
  rewrite bind_run, H. reflexivity.
Qed.

Lemma get_path_absent (w : World) (key : bytes) :
  _paths (protocol w) !! key = None ->
  exists w1,
    _get_path key w = (Ret (next_ref w), w1)
    /\ _paths (protocol w1) = <[key := next_ref w]> (_paths (protocol w))
    /\ _path_number (protocol w1) = _path_number (protocol w) + 1
    /\ _closed_future_done (protocol w1) = _closed_future_done (protocol w)
    /\ path_objs w1 =
       <[next_ref w := Path_new key (_path_number (protocol w) + 1)]> (path_objs w)
    /\ next_ref w1 = S (next_ref w)
    /\ clients w1 = clients w
    /\ trace w1 = trace w /\ scheduled w1 = scheduled w.
Proof.
  intros H. unfold _get_path. rewrite bind_run. unfold get_protocol.
  rewrite H. eexists. split.
  - rewrite !bind_run. map_simpl. rewrite bind_run. map_simpl.
    rewrite lookup_insert_eq. reflexivity.
  - map_simpl. repeat split; reflexivity.
Qed.

(** X4.  [_get_path] always returns a path that is registered under the
    key, never [KeyError]; a second call for the same key returns the same
    path and changes nothing. *)
Theorem get_path_registers_once :
  forall (w : World) (key : bytes),
    exists r w1,
      _get_path key w = (Ret r, w1)
      /\ _paths (protocol w1) !! key = Some r
      /\ _get_path key w1 = (Ret r, w1).
Proof.
  intros w key. destruct (_paths (protocol w) !! key) as [r|] eqn:E.
  - exists r, w. split; [by apply get_path_present|].
    split; [exact E|by apply get_path_present].
  - destruct (get_path_absent w key E) as (w1 & Hrun & Hpaths & _).
    assert (Hk : _paths (protocol w1) !! key = Some (next_ref w))
      by (rewrite Hpaths; apply lookup_insert_eq).
    exists (next_ref w), w1. split; [exact Hrun|].
    split; [exact Hk|by apply get_path_present].
Qed.

(** X5.  For a key that has no path, [_get_path] creates one: the counter
    goes up by one and numbers the new path, the new path has every slot
    free, and the paths of other keys stay where they were. *)
Theorem get_path_creates_numbered_empty_path :
  forall (w : World) (key : bytes),
    _paths (protocol w) !! key = None ->
    exists r w1 p,
      _get_path key w = (Ret r, w1)
      /\ path_objs w1 !! r = Some p
      /\ number p = _path_number (protocol w) + 1
      /\ _path_number (protocol w1) = _path_number (protocol w) + 1
      /\ initiator_key p = key
      /\ Path_is_empty p = true
      /\ (forall key', key' <> key ->
            _paths (protocol w1) !! key' = _paths (protocol w) !! key').
Proof.
  intros w key H.
  destruct (get_path_absent w key H)
    as (w1 & Hrun & Hpaths & Hnum & _ & Hobjs & _).
  exists (next_ref w), w1, (Path_new key (_path_number (protocol w) + 1)).
  split; [exact Hrun|]. split; [rewrite Hobjs; apply lookup_insert_eq|].
  split; [reflexivity|]. split; [exact Hnum|]. split; [reflexivity|].
  split; [reflexivity|].
  intros key' Hne. rewrite Hpaths. by apply lookup_insert_ne.
Qed.

Lemma clean_path_empty_run (w : World) (path r : nat) (p : Path) :
  path_objs w !! path = Some p ->
  Path_is_empty p = true ->
  _paths (protocol w) !! initiator_key p = Some r ->
  _clean_path path w =
  (Ret tt,
   set_protocol (fun P => with_paths (delete (initiator_key p) (_paths P)) P) w).
Proof.
  intros Hp He Hr. unfold _clean_path, Path_empty.
  rewrite bind_run, (bind_ret _ _ _ _ _ (load_path_run _ _ _ Hp)).
  unfold mret at 1, M_ret at 1. rewrite He.
  rewrite (bind_ret _ _ _ _ _ (load_path_run _ _ _ Hp)).
  rewrite bind_run. unfold get_protocol. rewrite Hr. reflexivity.
Qed.

(** X6.  Creating a path and cleaning it at once gives the path table back
    as it was, while the path counter keeps its new value: a path number is
    not used twice. *)
Theorem get_path_then_clean_path :
  forall (w : World) (key : bytes),
    _paths (protocol w) !! key = None ->
    exists w2,
      (path ← _get_path key; _clean_path path) w = (Ret tt, w2)
      /\ _paths (protocol w2) = _paths (protocol w)
      /\ _path_number (protocol w2) = _path_number (protocol w) + 1.
Proof.
  intros w key H.
  destruct (get_path_absent w key H)
    as (w1 & Hrun & Hpaths & Hnum & _ & Hobjs & _).
  assert (Hp : path_objs w1 !! next_ref w =
               Some (Path_new key (_path_number (protocol w) + 1)))
    by (rewrite Hobjs; apply lookup_insert_eq).
  assert (Hk : _paths (protocol w1) !!
                 initiator_key (Path_new key (_path_number (protocol w) + 1))
               = Some (next_ref w))
    by (simpl; rewrite Hpaths; apply lookup_insert_eq).
  eexists. split.
  - rewrite (bind_ret _ _ _ _ _ Hrun).
    apply (clean_path_empty_run _ _ _ _ Hp eq_refl Hk).
  - simpl. rewrite Hpaths, Hnum. split; [|reflexivity].
    by apply delete_insert_id.
Qed.

(** [_clean_path] leaves a path alone while a client is in one of its
    slots. *)
Lemma clean_path_keeps_occupied_path :
  forall (w : World) (path : nat) (p : Path),
    path_objs w !! path = Some p ->
    Path_is_empty p = false ->
    _clean_path path w = (Ret tt, w).
Proof.
  intros w path p Hp He. unfold _clean_path, Path_empty.
  rewrite bind_run, (bind_ret _ _ _ _ _ (load_path_run _ _ _ Hp)).
  unfold mret at 1, M_ret at 1. rewrite He. reflexivity.
Qed.

(** X7.  [_clean_path] is not idempotent: on an empty path that is in the
    table the first call deletes the entry, and a second call raises
    [KeyError] from [del self._paths[...]]. *)
Theorem clean_path_twice_raises_KeyError :
  forall (w : World) (path r : nat) (p : Path),
    path_objs w !! path = Some p ->
    Path_is_empty p = true ->
    _paths (protocol w) !! initiator_key p = Some r ->
    exists w1,
      _clean_path path w = (Ret tt, w1)
      /\ _paths (protocol w1) !! initiator_key p = None
      /\ _clean_path path w1 = (Raise KeyError, w1).
Proof.
  intros w path r p Hp He Hr. eexists.
  split; [apply (clean_path_empty_run _ _ _ _ Hp He Hr)|].
  set (w1 := set_protocol _ w).
  assert (Hnone : _paths (protocol w1) !! initiator_key p = None)
    by (subst w1; simpl; apply lookup_delete_eq).
  split; [exact Hnone|].
  unfold _clean_path, Path_empty.
  assert (Hp1 : path_objs w1 !! path = Some p) by exact Hp.
  rewrite bind_run, (bind_ret _ _ _ _ _ (load_path_run _ _ _ Hp1)).
  unfold mret at 1, M_ret at 1. rewrite He.
  rewrite (bind_ret _ _ _ _ _ (load_path_run _ _ _ Hp1)).
  rewrite bind_run. unfold get_protocol. rewrite Hnone. reflexivity.
Qed.

(** ** The client *)

Ltac map_run H :=
  repeat first
    [ rewrite bind_run
    | rewrite lookup_insert_eq
    | rewrite H
    | progress map_simpl ].

(** X8.  The [server_key] property creates the session key on first use and
    keeps it: the call stores the key it returns, a second call returns the
    same key and changes nothing, and a client that already has a key gets
    that key without any entropy being drawn. *)
Theorem server_key_created_once :
  forall (w : World) (self : nat) (c : Client),
    clients w !! self = Some c ->
    exists k w1,
      Client_server_key self w = (Ret k, w1)
      /\ (_server_key <$> clients w1 !! self) = Some (Some k)
      /\ Client_server_key self w1 = (Ret k, w1)
      /\ (forall k0, _server_key c = Some k0 -> k = k0 /\ w1 = w)
      /\ (_server_key c = None ->
          sk k = entropy w <$> seq (entropy_pos w) KEY_LENGTH
          /\ entropy_pos w1 = (entropy_pos w + KEY_LENGTH)%nat).
Proof.
  intros w self c Hc. destruct (_server_key c) as [k0|] eqn:Hk.
  - exists k0, w. unfold Client_server_key.
    rewrite (bind_ret _ _ _ _ _ (load_client_run _ _ _ Hc)), Hk.
    split; [reflexivity|]. split; [by rewrite Hc; simpl; rewrite Hk|].
    split; [reflexivity|]. split; [|discriminate].
    intros k [= ->]. by split.
  - eexists _, _. split.
    { unfold Client_server_key.
      rewrite (bind_ret _ _ _ _ _ (load_client_run _ _ _ Hc)), Hk.
      unfold SecretKey_new, os_urandom, update_client. map_run Hc.
      reflexivity. }
    split; [map_simpl; by rewrite lookup_insert_eq|].
    split.
    { unfold Client_server_key, load_client. map_run Hc. reflexivity. }
    split; [discriminate|]. intros _. split; reflexivity.
Qed.

(** X9.  [set_client_key] stores the key and rebuilds the box for it:
    afterwards the client holds the new key, its box pairs the session secret
    key with the new key, and the [box] property returns that box without
    changing anything. *)
Theorem set_client_key_rebuilds_box :
  forall (w : World) (self : nat) (c : Client) (public_key : bytes),
    clients w !! self = Some c ->
    exists k w1 c1,
      Client_set_client_key self public_key w = (Ret tt, w1)
      /\ clients w1 !! self = Some c1
      /\ _client_key c1 = public_key
      /\ _server_key c1 = Some k
      /\ _box c1 = Some {| box_sk := sk k; box_pk := public_key |}
      /\ Client_box self w1 =
         (Ret {| box_sk := sk k; box_pk := public_key |}, w1).
Proof.
  intros w self c public_key Hc. destruct (_server_key c) as [k0|] eqn:Hk.
  - eexists k0, _, _. split.
    { unfold Client_set_client_key, Client_server_key, update_client,
        load_client. map_run Hc. rewrite Hk. map_run Hc. reflexivity. }
    split; [map_simpl; by rewrite lookup_insert_eq|].
    split; [reflexivity|]. split; [exact Hk|]. split; [reflexivity|].
    unfold Client_box, load_client. map_run Hc. reflexivity.
  - eexists _, _, _. split.
    { unfold Client_set_client_key, Client_server_key, SecretKey_new,
        os_urandom, update_client, load_client.
      map_run Hc. rewrite Hk. map_run Hc. reflexivity. }
    split; [map_simpl; by rewrite lookup_insert_eq|].
    split; [reflexivity|]. split; [reflexivity|]. split; [reflexivity|].
    unfold Client_box, load_client. map_run Hc. reflexivity.
Qed.

(** X10.  [Client.send] of data that is already packed, which it forwards
    without calling the codec: the call raises nothing but [Disconnected],
    and only on a closed connection; nothing has been written then. *)
Theorem send_bytes_raises_only_Disconnected :
  forall (w w' : World) (self : nat) (data : bytes) (e : exn),
    Client_send self (AsBytes data) w = (Raise e, w') ->
    e = Disconnected /\ w' = w
    /\ exists c k, clients w !! self = Some c
                   /\ connections w !! _connection c = Some k
                   /\ conn_open k = false.
Proof.
  intros w w' self data e. unfold Client_send, load_client.
  rewrite bind_run. destruct (clients w !! self) as [c|] eqn:Hc;
    [|discriminate].
  unfold try_except, connection_send, get_connection. rewrite bind_run.
  destruct (connections w !! _connection c) as [k|] eqn:Hk; [|discriminate].
  destruct (conn_open k) eqn:Ho; simpl.
  - destruct (writable k); simpl; discriminate.
  - intros [= <- <-]. split; [reflexivity|]. split; [reflexivity|].
    exists c, k. by repeat split.
Qed.

Lemma Client_ping_raise (w w' : World) (self : nat) (e : exn) :
  Client_ping self w = (Raise e, w') ->
  e = Disconnected /\ w' = w
  /\ exists c k, clients w !! self = Some c
                 /\ connections w !! _connection c = Some k
                 /\ conn_open k = false.
Proof.
  unfold Client_ping, load_client.
  rewrite bind_run. destruct (clients w !! self) as [c|] eqn:Hc;
    [|discriminate].
  rewrite bind_run.
  unfold try_except, connection_ping, get_connection. rewrite bind_run.
  destruct (connections w !! _connection c) as [k|] eqn:Hk; [|discriminate].
  destruct (conn_open k) eqn:Ho; simpl.
  - destruct (writable k); simpl; discriminate.
  - intros [= <- <-]. split; [reflexivity|]. split; [reflexivity|].
    exists c, k. by repeat split.
Qed.

(** X11.  [Client.ping] likewise: its only exception is [Disconnected], on a
    closed connection, with no ping written. *)
Theorem ping_raises_only_Disconnected :
  forall (w w' : World) (self : nat) (e : exn),
    Client_ping self w = (Raise e, w') ->
    e = Disconnected /\ w' = w
    /\ exists c k, clients w !! self = Some c
                   /\ connections w !! _connection c = Some k
                   /\ conn_open k = false.
Proof. intros w w' self e. apply Client_ping_raise. Qed.

(** ** The relay *)

(** X12.  With a receiver whose connection is in good order, the relay
    writes the frame to the receiver's connection as it came, the nonce
    followed by the ciphertext, and nothing else: no send-error goes to the
    sender. *)
Theorem relay_forwards_frame_verbatim :
  forall (w : World) (path sender r : nat) (s c : Client) (k : Connection)
         (receiver : Z) (nonce data : bytes),
    clients w !! sender = Some s ->
    clients w !! r = Some c ->
    connections w !! _connection c = Some k ->
    conn_open k = true -> writable k = true ->
    _relay_message path sender (Some r) (RawMessage receiver nonce data) w =
    (Ret tt,
     add_events
       [EvSend (_connection c) (AsMessage (RawMessage receiver nonce data))
          (nonce ++ data)] w).
Proof.
  intros w path sender r s c k receiver nonce data Hs Hc Hk Ho Hw.
  unfold _relay_message.
  rewrite (bind_ret _ _ _ _ _ (load_client_run _ _ _ Hs)).
  unfold try_except at 1. unfold wait_for.
  by rewrite (Client_send_run _ r c k _ Hc Hk Ho Hw).
Qed.

(** X13.  When the receiver's connection is closed, or a write to it does
    not complete within the relay timeout, nothing reaches the receiver and
    the sender gets a send-error with the SHA-256 hash of the frame. *)
Theorem relay_failure_sends_send_error :
  forall (w : World) (path sender r : nat) (s c : Client) (ks k : Connection)
         (receiver : Z) (nonce data : bytes),
    clients w !! sender = Some s ->
    connections w !! _connection s = Some ks ->
    conn_open ks = true -> writable ks = true ->
    clients w !! r = Some c ->
    connections w !! _connection c = Some k ->
    conn_open k = false \/ writable k = false ->
    let error := SendErrorMessage (crypto_hash_sha256 (nonce ++ data)) in
    _relay_message path sender (Some r) (RawMessage receiver nonce data) w =
    (Ret tt,
     add_events [EvSend (_connection s) (AsMessage error) (pack error s)] w).
Proof.
  intros w path sender r s c ks k receiver nonce data Hs Hks Hos Hws Hc Hk
    Hbad error.
  unfold _relay_message.
  rewrite (bind_ret _ _ _ _ _ (load_client_run _ _ _ Hs)).
  unfold try_except at 1. unfold wait_for.
  assert (Hfail : Client_send r (AsMessage (RawMessage receiver nonce data)) w
                  = (Raise Disconnected, w)
                  \/ Client_send r (AsMessage (RawMessage receiver nonce data)) w
                  = (Pending, w)).
  { unfold Client_send.
    rewrite (bind_ret _ _ _ _ _ (load_client_run _ _ _ Hc)).
    unfold try_except, connection_send.
    rewrite bind_run, (get_connection_run _ _ _ Hk).
    destruct (conn_open k) eqn:Ho; [|by left].
    destruct Hbad as [Hbad|Hbad]; [discriminate|]. rewrite Hbad. by right. }
  destruct Hfail as [-> | ->]; simpl;
    by apply Client_send_run with (k := ks).
Qed.

(** ** The receive loops *)

Lemma Client_receive_effects (self : nat) (w : World) :
  let w' := (Client_receive self w).2 in
  trace w' = trace w /\ scheduled w' = scheduled w /\ protocol w' = protocol w.
Proof.
  unfold Client_receive, load_client. rewrite bind_run.
  destruct (clients w !! self) as [c|]; [|by repeat split].
  rewrite bind_run. unfold try_except, connection_recv, get_connection.
  rewrite bind_run.
  destruct (connections w !! _connection c) as [k|]; [|by repeat split].
  destruct (inbox k) as [|[e|m] rest]; [destruct (conn_open k)|..];
    by repeat split.
Qed.

Lemma set_scheduled_nil (w : World) : set_scheduled (fun q => q ++ []) w = w.
Proof. destruct w. unfold set_scheduled. simpl. by rewrite app_nil_r. Qed.

Lemma consumed_nothing (conn : nat) (k : Connection) (w : World) :
  connections w !! conn = Some k ->
  consumed_and_scheduled conn k (inbox k) [] w = w.
Proof.
  intros Hk. unfold consumed_and_scheduled. rewrite set_scheduled_nil.
  destruct w, k. unfold set_connections, with_inbox. simpl in *.
  by rewrite insert_id.
Qed.

Lemma consumed_only (conn : nat) (k : Connection)
    (rest : list (exn + Message)) (w : World) :
  consumed_and_scheduled conn k rest [] w =
  set_connections (insert conn (with_inbox rest k)) w.
Proof. unfold consumed_and_scheduled. apply set_scheduled_nil. Qed.

Lemma consumed_and_scheduled_twice (conn : nat) (k : Connection)
    (r1 r2 : list (exn + Message)) (l1 l2 : list Task) (w : World) :
  consumed_and_scheduled conn (with_inbox r1 k) r2 l2
    (consumed_and_scheduled conn k r1 l1 w) =
  consumed_and_scheduled conn k r2 (l1 ++ l2) w.
Proof.
  unfold consumed_and_scheduled, set_scheduled, set_connections, with_inbox.
  map_simpl. by rewrite insert_insert_eq, app_assoc.
Qed.

Lemma Client_receive_frame (w : World) (self : nat) (c : Client)
    (k : Connection) (frame : exn + Message) (rest : list (exn + Message)) :
  clients w !! self = Some c ->
  connections w !! _connection c = Some k ->
  inbox k = frame :: rest ->
  Client_receive self w =
  (match frame with inl e => Raise e | inr m => Ret m end,
   set_connections (insert (_connection c) (with_inbox rest k)) w).
Proof.
  intros Hc Hk Hin. unfold Client_receive.
  rewrite (bind_ret _ _ _ _ _ (load_client_run _ _ _ Hc)).
  rewrite bind_run. unfold try_except, connection_recv.
  rewrite bind_run, (get_connection_run _ _ _ Hk), Hin.
  by destruct frame.
Qed.

Lemma Client_receive_empty (w : World) (self : nat) (c : Client)
    (k : Connection) :
  clients w !! self = Some c ->
  connections w !! _connection c = Some k ->
  inbox k = [] ->
  Client_receive self w =
  (if conn_open k then Pending else Raise Disconnected, w).
Proof.
  intros Hc Hk Hin. unfold Client_receive.
  rewrite (bind_ret _ _ _ _ _ (load_client_run _ _ _ Hc)).
  rewrite bind_run. unfold try_except, connection_recv.
  rewrite bind_run, (get_connection_run _ _ _ Hk), Hin.
  by destruct (conn_open k).
Qed.

Lemma initiator_dispatch_cases (w : World) (path initiator : nat) (p : Path)
    (m : Message) :
  path_objs w !! path = Some p ->
  let l := omap (initiator_relay p path initiator) [inr m] in
  _run_initiator_dispatch path initiator m w =
    (Ret tt, set_scheduled (fun q => q ++ l) w)
  \/ (l = [] /\ exists e, _run_initiator_dispatch path initiator m w
                          = (Raise e, w)).
Proof.
  intros Hp. unfold _run_initiator_dispatch, Path_get_responder.
  destruct m; try (right; split; [reflexivity|by eexists]).
  - destruct (bool_decide (1 < responder_id) && bool_decide (responder_id <= 255));
      simpl; [|right; split; [reflexivity|by eexists]].
    rewrite bind_run, (bind_ret _ _ _ _ _ (load_path_run _ _ _ Hp)).
    unfold mret at 1, M_ret at 1.
    destruct (dict_get responder_id (_slots p)).
    + right. split; [reflexivity|by eexists].
    + left. by rewrite set_scheduled_nil.
  - simpl.
    destruct (bool_decide (1 < receiver) && bool_decide (receiver <= 255));
      simpl; [|right; split; [reflexivity|by eexists]].
    left. rewrite bind_run, (bind_ret _ _ _ _ _ (load_path_run _ _ _ Hp)).
    reflexivity.
Qed.

Lemma responder_dispatch_cases (w : World) (path responder : nat) (p : Path)
    (m : Message) :
  path_objs w !! path = Some p ->
  let l := omap (responder_relay p path responder) [inr m] in
  _run_responder_dispatch path responder m w =
    (Ret tt, set_scheduled (fun q => q ++ l) w)
  \/ (l = [] /\ exists e, _run_responder_dispatch path responder m w
                          = (Raise e, w)).
Proof.
  intros Hp. unfold _run_responder_dispatch, Path_get_initiator.
  destruct m; try (right; split; [reflexivity|by eexists]).
  left. simpl.
  rewrite bind_run, (bind_ret _ _ _ _ _ (load_path_run _ _ _ Hp)).
  reflexivity.
Qed.

Lemma omap_cons_app {A B} (f : A -> option B) (x : A) (xs : list A) :
  omap f (x :: xs) = omap f [x] ++ omap f xs.
Proof. simpl. by destruct (f x). Qed.

(** X14.  What the initiator's receive loop does, for any number of rounds:
    it reads frames off the front of the initiator's own connection, at most
    one a round, and schedules, in the order read, one relay for each relay
    frame addressed to a responder identifier: the relay of that very frame
    from this initiator on this path to what [get_responder] finds in the
    addressed slot.  Nothing else changes: no frame is written, no close is
    scheduled, and clients, paths, the path table and every other connection
    stay as they were. *)
Theorem run_initiator_schedules_exactly_relays :
  forall (fuel path initiator : nat) (w : World) (c : Client) (k : Connection)
         (p : Path),
    clients w !! initiator = Some c ->
    connections w !! _connection c = Some k ->
    path_objs w !! path = Some p ->
    exists consumed rest,
      inbox k = consumed ++ rest
      /\ (length consumed <= fuel)%nat
      /\ (_run_initiator fuel path initiator w).2 =
         consumed_and_scheduled (_connection c) k rest
           (omap (initiator_relay p path initiator) consumed) w.
Proof.
  induction fuel as [|fuel IH]; intros path initiator w c k p Hc Hk Hp.
  - exists [], (inbox k). split; [reflexivity|]. split; [reflexivity|].
    rewrite consumed_nothing by assumption.
    simpl. rewrite bind_run. unfold get_protocol.
    by destruct (_closed_future_done (protocol w)).
  - cbn [_run_initiator]. rewrite bind_run. unfold get_protocol.
    destruct (_closed_future_done (protocol w)).
    { exists [], (inbox k). split; [reflexivity|]. split; [simpl; lia|].
      by rewrite consumed_nothing. }
    rewrite bind_run. destruct (inbox k) as [|frame rest1] eqn:Hin.
    { exists [], []. split; [reflexivity|]. split; [simpl; lia|].
      rewrite (Client_receive_empty _ _ _ _ Hc Hk Hin).
      pose proof (consumed_nothing _ _ _ Hk) as Hsame. rewrite Hin in Hsame.
      cbn [omap list_omap]. rewrite Hsame.
      by destruct (conn_open k). }
    rewrite (Client_receive_frame _ _ _ _ _ _ Hc Hk Hin).
    set (w1 := set_connections _ w).
    destruct frame as [e|m].
    { exists [inl e], rest1. split; [reflexivity|]. split; [simpl; lia|].
      simpl. by rewrite consumed_only. }
    rewrite bind_run.
    assert (Hp1 : path_objs w1 !! path = Some p) by exact Hp.
    destruct (initiator_dispatch_cases w1 path initiator p m Hp1)
      as [Hrun|[Hnil [e Hrun]]]; rewrite Hrun.
    + set (l := omap (initiator_relay p path initiator) [inr m]) in *.
      assert (Hk2 : connections (set_scheduled (fun q => q ++ l) w1)
                      !! _connection c = Some (with_inbox rest1 k))
        by (subst w1; map_simpl; apply lookup_insert_eq).
      destruct (IH path initiator (set_scheduled (fun q => q ++ l) w1) c
                  (with_inbox rest1 k) p Hc Hk2 Hp)
        as (consumed2 & rest2 & Hsplit & Hlen & Hfinal).
      exists (inr m :: consumed2), rest2.
      split; [simpl in Hsplit; by rewrite Hsplit|]. split; [simpl; lia|].
      rewrite Hfinal, omap_cons_app.
      apply (consumed_and_scheduled_twice (_connection c) k rest1 rest2 l).
    + exists [inr m], rest1. split; [reflexivity|]. split; [simpl; lia|].
      rewrite Hnil. by rewrite consumed_only.
Qed.

(** X15.  What the responder's receive loop does, for any number of rounds:
    it reads frames off the front of the responder's own connection, at most
    one a round, and schedules, in the order read, one relay for each relay
    frame: the relay of that very frame from this responder on this path to
    what slot 0x01 holds.  Nothing else changes: no frame is written, and
    clients, paths, the path table and every other connection stay as they
    were. *)
Theorem run_responder_schedules_exactly_relays :
  forall (fuel path responder : nat) (w : World) (c : Client) (k : Connection)
         (p : Path),
    clients w !! responder = Some c ->
    connections w !! _connection c = Some k ->
    path_objs w !! path = Some p ->
    exists consumed rest,
      inbox k = consumed ++ rest
      /\ (length consumed <= fuel)%nat
      /\ (_run_responder fuel path responder w).2 =
         consumed_and_scheduled (_connection c) k rest
           (omap (responder_relay p path responder) consumed) w.
Proof.
  induction fuel as [|fuel IH]; intros path responder w c k p Hc Hk Hp.
  - exists [], (inbox k). split; [reflexivity|]. split; [reflexivity|].
    rewrite consumed_nothing by assumption.
    simpl. rewrite bind_run. unfold get_protocol.
    by destruct (_closed_future_done (protocol w)).
  - cbn [_run_responder]. rewrite bind_run. unfold get_protocol.
    destruct (_closed_future_done (protocol w)).
    { exists [], (inbox k). split; [reflexivity|]. split; [simpl; lia|].
      by rewrite consumed_nothing. }
    rewrite bind_run. destruct (inbox k) as [|frame rest1] eqn:Hin.
    { exists [], []. split; [reflexivity|]. split; [simpl; lia|].
      rewrite (Client_receive_empty _ _ _ _ Hc Hk Hin).
      pose proof (consumed_nothing _ _ _ Hk) as Hsame. rewrite Hin in Hsame.
      cbn [omap list_omap]. rewrite Hsame.
      by destruct (conn_open k). }
    rewrite (Client_receive_frame _ _ _ _ _ _ Hc Hk Hin).
    set (w1 := set_connections _ w).
    destruct frame as [e|m].
    { exists [inl e], rest1. split; [reflexivity|]. split; [simpl; lia|].
      simpl. by rewrite consumed_only. }
    rewrite bind_run.
    assert (Hp1 : path_objs w1 !! path = Some p) by exact Hp.
    destruct (responder_dispatch_cases w1 path responder p m Hp1)
      as [Hrun|[Hnil [e Hrun]]]; rewrite Hrun.
    + set (l := omap (responder_relay p path responder) [inr m]) in *.
      assert (Hk2 : connections (set_scheduled (fun q => q ++ l) w1)
                      !! _connection c = Some (with_inbox rest1 k))
        by (subst w1; map_simpl; apply lookup_insert_eq).
      destruct (IH path responder (set_scheduled (fun q => q ++ l) w1) c
                  (with_inbox rest1 k) p Hc Hk2 Hp)
        as (consumed2 & rest2 & Hsplit & Hlen & Hfinal).
      exists (inr m :: consumed2), rest2.
      split; [simpl in Hsplit; by rewrite Hsplit|]. split; [simpl; lia|].
      rewrite Hfinal, omap_cons_app.
      apply (consumed_and_scheduled_twice (_connection c) k rest1 rest2 l).
    + exists [inr m], rest1. split; [reflexivity|]. split; [simpl; lia|].
      rewrite Hnil. by rewrite consumed_only.
Qed.

(** X16.  drop-responder for a responder slot that is free: nothing to do,
    the world stays as it is and the loop goes on. *)
Theorem drop_responder_free_slot_is_noop :
  forall (w : World) (path initiator : nat) (p : Path) (responder_id : Z),
    path_objs w !! path = Some p ->
    0x01 < responder_id <= 0xff ->
    dict_get responder_id (_slots p) = None ->
    _run_initiator_dispatch path initiator (DropResponderMessage responder_id) w
    = (Ret tt, w).
Proof.
  intros w path initiator p responder_id Hp [Hlo Hhi] Hfree.
  unfold _run_initiator_dispatch, Path_get_responder.
  rewrite !bool_decide_eq_true_2 by assumption. simpl.
  rewrite bind_run, (bind_ret _ _ _ _ _ (load_path_run _ _ _ Hp)).
  unfold mret at 1, M_ret at 1. rewrite Hfree. reflexivity.
Qed.

(** ** Keep-alive *)

(** One round of the keep-alive loop, by what the ping does. *)
Lemma keep_alive_round (fuel path client : nat) (w : World) :
  _keep_alive (S fuel) path client w =
  match Client_ping client w with
  | (Ret _, w1) =>
      _keep_alive fuel path client
        (add_events [EvSleep KEEP_ALIVE_INTERVAL] w1)
  | (Raise TimeoutError, w1) => (Raise PingTimeoutError, w1)
  | (Raise e, w1) => (Raise e, w1)
  | (Pending, w1) => (Raise PingTimeoutError, w1)
  | (Stuck, w1) => (Stuck, w1)
  end.
Proof.
  simpl. rewrite bind_run. unfold try_except, wait_for.
  destruct (Client_ping client w) as [[[]|e| |] w1]; try reflexivity.
  destruct e; reflexivity.
Qed.

(** X17.  The keep-alive loop has no normal exit, and the only exceptions
    that leave it are [PingTimeoutError] and [Disconnected], as its docstring
    lists them. *)
Theorem keep_alive_ends_only_by_timeout_or_disconnect :
  forall (fuel path client : nat) (w : World),
    (forall a w', _keep_alive fuel path client w <> (Ret a, w'))
    /\ (forall e w', _keep_alive fuel path client w = (Raise e, w') ->
          e = PingTimeoutError \/ e = Disconnected).
Proof.
  induction fuel as [|fuel IH]; intros path client w.
  - simpl. split; intros; discriminate.
  - rewrite keep_alive_round.
    pose proof (Client_ping_raise w) as Hping.
    destruct (Client_ping client w) as [[[]|e| |] w1] eqn:E.
    + apply IH.
    + destruct (Hping w1 client e E) as (-> & _).
      split; intros; [discriminate|]. right. congruence.
    + split; intros; [discriminate|]. left. congruence.
    + split; intros; discriminate.
Qed.

(** ** The join of the tasks *)

Lemma cancel_all_run (pending_ : list nat) (w : World) :
  cancel_all pending_ w = (Ret tt, add_events (EvCancel <$> pending_) w).
Proof.
  revert w. induction pending_ as [|t rest IH]; intros w.
  - simpl. by rewrite add_events_nil.
  - simpl. rewrite bind_run. unfold emit. rewrite IH.
    unfold add_events, set_trace. simpl. by rewrite <- app_assoc.
Qed.

(** X18.  When the task the join looks at has raised, every pending task is
    cancelled, once and in order, and the exception is raised again; when it
    has returned, [SignalingError] is raised and nothing is cancelled; when
    it was cancelled, [task.exception()] raises [CancelledError] and nothing
    is cancelled either. *)
Theorem join_tasks_outcomes :
  forall (w : World) (task : nat) (rest : list (nat * task_outcome))
         (pending_ : list nat) (e : exn),
    join_tasks ((task, Failed e) :: rest) pending_ w =
      (Raise e, add_events (EvCancel <$> pending_) w)
    /\ join_tasks ((task, Returned) :: rest) pending_ w =
      (Raise SignalingError, w)
    /\ join_tasks ((task, WasCancelled) :: rest) pending_ w =
      (Raise CancelledError, w).
Proof.
  intros w task rest pending_ e. split; [|split; reflexivity].
  unfold join_tasks. rewrite bind_run. simpl.
  rewrite bind_run, cancel_all_run. reflexivity.
Qed.

(** ** The handshake *)

Lemma handshake_initiator_wrong_cookie (w : World) (path initiator : nat)
    (cookie client_cookie server_cookie : bytes) :
  cookie <> server_cookie ->
  _handshake_initiator path initiator
    (ClientAuthMessage cookie client_cookie) server_cookie w =
  (Raise MessageError, w).
Proof.
  intros Hne.
  unfold _handshake_initiator. rewrite bind_run. simpl.
  unfold consteq. rewrite bool_decide_eq_false_2 by assumption. reflexivity.
Qed.

(** X19.  An initiator whose client-auth carries a cookie that is not the
    server's: the handshake raises [MessageError] once the message is read.
    The client has been given the initiator type but is not marked
    authenticated, no slot of any path changes, nothing is sent and nothing
    is scheduled. *)
Theorem handshake_initiator_rejects_wrong_cookie :
  forall (w : World) (path client : nat) (c : Client) (k : Connection)
         (cookie client_cookie server_cookie : bytes)
         (rest : list (exn + Message)),
    clients w !! client = Some c ->
    connections w !! _connection c = Some k ->
    inbox k = inr (ClientAuthMessage cookie client_cookie) :: rest ->
    cookie <> server_cookie ->
    exists w',
      _handshake_after_hello path client server_cookie w =
        (Raise MessageError, w')
      /\ clients w' !! client =
         Some (with_type (Some ReceiverType.initiator) c)
      /\ authenticated (with_type (Some ReceiverType.initiator) c) =
         authenticated c
      /\ path_objs w' = path_objs w
      /\ trace w' = trace w /\ scheduled w' = scheduled w.
Proof.
  intros w path client c k cookie client_cookie server_cookie rest
    Hc Hk Hin Hne.
  eexists. split.
  { unfold _handshake_after_hello.
    rewrite (bind_ret _ _ _ _ _ (Client_receive_run _ _ _ _ _ _ Hc Hk Hin)).
    cbn [Message_type]. rewrite bool_decide_eq_true_2 by reflexivity.
    rewrite bind_run. unfold update_client. map_simpl. rewrite Hc.
    rewrite handshake_initiator_wrong_cookie by assumption. reflexivity. }
  map_simpl. rewrite lookup_insert_eq. by repeat split.
Qed.

(** X20.  A first message that is neither client-auth nor client-hello ends
    the handshake with [MessageFlowError]; the client keeps no type, is not
    authenticated by it, and only the frame read is gone. *)
Theorem handshake_rejects_unexpected_message :
  forall (w : World) (path client : nat) (c : Client) (k : Connection)
         (m : Message) (server_cookie : bytes) (rest : list (exn + Message)),
    clients w !! client = Some c ->
    connections w !! _connection c = Some k ->
    inbox k = inr m :: rest ->
    Message_type m <> Some MessageType.client_auth ->
    Message_type m <> Some MessageType.client_hello ->
    _handshake_after_hello path client server_cookie w =
    (Raise MessageFlowError,
     set_connections (insert (_connection c)
       {| inbox := rest; conn_open := conn_open k; writable := writable k;
          answers_pings := answers_pings k |}) w).
Proof.
  intros w path client c k m server_cookie rest Hc Hk Hin Hauth Hhello.
  unfold _handshake_after_hello.
  rewrite (bind_ret _ _ _ _ _ (Client_receive_run _ _ _ _ _ _ Hc Hk Hin)).
  rewrite !bool_decide_eq_false_2 by assumption. reflexivity.
Qed.

Lemma set_client_key_frame (w : World) (self : nat) (c : Client)
    (public_key : bytes) :
  clients w !! self = Some c ->
  exists w1 c1,
    Client_set_client_key self public_key w = (Ret tt, w1)
    /\ clients w1 !! self = Some c1
    /\ _connection c1 = _connection c
    /\ authenticated c1 = authenticated c
    /\ connections w1 = connections w
    /\ path_objs w1 = path_objs w
    /\ protocol w1 = protocol w
    /\ trace w1 = trace w /\ scheduled w1 = scheduled w.
Proof.
  intros Hc. destruct (_server_key c) as [k0|] eqn:Hk.
  - eexists _, _. split.
    { unfold Client_set_client_key, Client_server_key, update_client,
        load_client. map_run Hc. rewrite Hk. map_run Hc. reflexivity. }
    split; [map_simpl; by rewrite lookup_insert_eq|]. by repeat split.
  - eexists _, _. split.
    { unfold Client_set_client_key, Client_server_key, SecretKey_new,
        os_urandom, update_client, load_client.
      map_run Hc. rewrite Hk. map_run Hc. reflexivity. }
    split; [map_simpl; by rewrite lookup_insert_eq|]. by repeat split.
Qed.

(** X21.  A responder whose client-auth carries a cookie that is not the
    server's: the handshake raises [MessageError]; the responder is not
    marked authenticated, no slot of any path changes, nothing is sent and
    nothing is scheduled. *)
Theorem handshake_responder_rejects_wrong_cookie :
  forall (w : World) (path responder : nat) (c : Client) (k : Connection)
         (key cookie client_cookie server_cookie : bytes)
         (rest : list (exn + Message)),
    clients w !! responder = Some c ->
    connections w !! _connection c = Some k ->
    inbox k = inr (ClientAuthMessage cookie client_cookie) :: rest ->
    cookie <> server_cookie ->
    exists w',
      _handshake_responder path responder (ClientHelloMessage key)
        server_cookie w = (Raise MessageError, w')
      /\ (authenticated <$> clients w' !! responder) = Some (authenticated c)
      /\ path_objs w' = path_objs w
      /\ trace w' = trace w /\ scheduled w' = scheduled w.
Proof.
  intros w path responder c k key cookie client_cookie server_cookie rest
    Hc Hk Hin Hne.
  destruct (set_client_key_frame w responder c key Hc)
    as (w1 & c1 & Hrun & Hc1 & Hconn & Hauth & Hcs & Hps & _ & Ht & Hs).
  assert (Hk1 : connections w1 !! _connection c1 = Some k)
    by (rewrite Hcs, Hconn; exact Hk).
  eexists. split.
  { unfold _handshake_responder. rewrite bind_run. simpl.
    rewrite (bind_ret _ _ _ _ _ Hrun).
    rewrite (bind_ret _ _ _ _ _
               (Client_receive_run _ _ _ _ _ _ Hc1 Hk1 Hin)).
    simpl. rewrite bind_run. simpl.
    unfold consteq. rewrite bool_decide_eq_false_2 by assumption.
    reflexivity. }
  simpl. rewrite Hc1. simpl. rewrite Hauth. by repeat split.
Qed.

Lemma handshake_split (path client : nat) :
  _handshake path client =
  (server_cookie ← os_urandom COOKIE_LENGTH;
   key ← Client_server_key client;
   Client_send client (AsMessage (ServerHelloMessage (pk key) server_cookie));;
   _handshake_after_hello path client server_cookie).
Proof. reflexivity. Qed.

Lemma silent_handshake_after_hello path client server_cookie :
  silent (_handshake_after_hello path client server_cookie).
Proof.
  unfold _handshake_after_hello.
  silent_bind_with ltac:(apply silent_Client_receive).
  repeat case_if.
  - silent_bind_with ltac:(auto with engine). apply silent_handshake_initiator.
  - silent_bind_with ltac:(auto with engine). apply silent_handshake_responder.
  - auto with engine.
Qed.

Lemma server_key_frame (w : World) (self : nat) :
  (exists k w1 c c1,
      Client_server_key self w = (Ret k, w1)
      /\ clients w !! self = Some c
      /\ clients w1 !! self = Some c1
      /\ _connection c1 = _connection c
      /\ _server_key c1 = Some k
      /\ trace w1 = trace w /\ scheduled w1 = scheduled w)
  \/ (clients w !! self = None /\ Client_server_key self w = (Stuck, w)).
Proof.
  destruct (clients w !! self) as [c|] eqn:Hc.
  - left. destruct (_server_key c) as [k0|] eqn:Hk.
    + exists k0, w, c, c. unfold Client_server_key.
      rewrite (bind_ret _ _ _ _ _ (load_client_run _ _ _ Hc)), Hk.
      by repeat split.
    + eexists _, _, c, _. split.
      { unfold Client_server_key.
        rewrite (bind_ret _ _ _ _ _ (load_client_run _ _ _ Hc)), Hk.
        unfold SecretKey_new, os_urandom, update_client. map_run Hc.
        reflexivity. }
      split; [reflexivity|].
      split; [map_simpl; by rewrite lookup_insert_eq|]. by repeat split.
  - right. split; [reflexivity|].
    unfold Client_server_key, load_client. rewrite bind_run, Hc. reflexivity.
Qed.

Lemma Client_send_effects (w : World) (self : nat) (c : Client) (m : Message) :
  clients w !! self = Some c ->
  Client_send self (AsMessage m) w =
    (Ret tt, add_events [EvSend (_connection c) (AsMessage m) (pack m c)] w)
  \/ ((Client_send self (AsMessage m) w).1 <> Ret tt
      /\ (Client_send self (AsMessage m) w).2 = w).
Proof.
  intros Hc. unfold Client_send.
  rewrite (bind_ret _ _ _ _ _ (load_client_run _ _ _ Hc)).
  unfold try_except, connection_send, get_connection. rewrite bind_run.
  destruct (connections w !! _connection c) as [k|]; [|by right].
  destruct (conn_open k); [|by right].
  destruct (writable k); [by left|by right].
Qed.

(** X22.  A responder whose message after client-hello is not a client-auth:
    the handshake raises [MessageFlowError]; the responder is not marked
    authenticated, no slot of any path changes, nothing is sent and nothing
    is scheduled. *)
Theorem handshake_responder_rejects_unexpected_message :
  forall (w : World) (path responder : nat) (c : Client) (k : Connection)
         (key server_cookie : bytes) (m : Message)
         (rest : list (exn + Message)),
    clients w !! responder = Some c ->
    connections w !! _connection c = Some k ->
    inbox k = inr m :: rest ->
    Message_type m <> Some MessageType.client_auth ->
    exists w',
      _handshake_responder path responder (ClientHelloMessage key)
        server_cookie w = (Raise MessageFlowError, w')
      /\ (authenticated <$> clients w' !! responder) = Some (authenticated c)
      /\ path_objs w' = path_objs w
      /\ trace w' = trace w /\ scheduled w' = scheduled w.
Proof.
  intros w path responder c k key server_cookie m rest Hc Hk Hin Hne.
  destruct (set_client_key_frame w responder c key Hc)
    as (w1 & c1 & Hrun & Hc1 & Hconn & Hauth & Hcs & Hps & _ & Ht & Hs).
  assert (Hk1 : connections w1 !! _connection c1 = Some k)
    by (rewrite Hcs, Hconn; exact Hk).
  eexists. split.
  { unfold _handshake_responder. rewrite bind_run. simpl.
    rewrite (bind_ret _ _ _ _ _ Hrun).
    rewrite (bind_ret _ _ _ _ _
               (Client_receive_run _ _ _ _ _ _ Hc1 Hk1 Hin)).
    rewrite bool_decide_eq_false_2 by assumption. reflexivity. }
  simpl. rewrite Hc1. simpl. rewrite Hauth. by repeat split.
Qed.

(** X23.  Whatever the client does, the handshake writes at most one frame:
    the server-hello, on the client's own connection, carrying the session
    public key of that client and the next [COOKIE_LENGTH] bytes of entropy
    as cookie.  It schedules nothing. *)
Theorem handshake_writes_only_server_hello :
  forall (w : World) (path client : nat),
    let w' := (_handshake path client w).2 in
    scheduled w' = scheduled w
    /\ (trace w' = trace w
        \/ exists c c1 key,
             clients w !! client = Some c
             /\ _connection c1 = _connection c
             /\ _server_key c1 = Some key
             /\ let hello :=
                  ServerHelloMessage (pk key)
                    (entropy w <$> seq (entropy_pos w) COOKIE_LENGTH) in
                trace w' =
                trace w ++ [EvSend (_connection c) (AsMessage hello)
                              (pack hello c1)]).
Proof.
  intros w path client. rewrite handshake_split.
  rewrite bind_run. unfold os_urandom at 1.
  set (cookie := entropy w <$> seq (entropy_pos w) COOKIE_LENGTH).
  set (we := {| clients := clients w; path_objs := path_objs w;
                connections := connections w; protocol := protocol w;
                scheduled := scheduled w; trace := trace w;
                next_ref := next_ref w; entropy := entropy w;
                entropy_pos := (entropy_pos w + COOKIE_LENGTH)%nat |}).
  rewrite bind_run.
  destruct (server_key_frame we client)
    as [(key & w1 & c & c1 & Hrun & Hc & Hc1 & Hconn & Hkey & Ht & Hs)
       |[_ Hstuck]].
  - rewrite Hrun, bind_run.
    change (clients w !! client = Some c) in Hc.
    change (trace w1 = trace w) in Ht.
    change (scheduled w1 = scheduled w) in Hs.
    destruct (Client_send_effects w1 client c1 (ServerHelloMessage (pk key) cookie) Hc1)
      as [Hsend|[Hfail Hsame]].
    + rewrite Hsend.
      destruct (silent_handshake_after_hello path client cookie
                  (add_events
                     [EvSend (_connection c1)
                        (AsMessage (ServerHelloMessage (pk key) cookie))
                        (pack (ServerHelloMessage (pk key) cookie) c1)] w1))
        as [Ht' Hs'].
      simpl in Ht', Hs'. simpl. split; [congruence|]. right.
      exists c, c1, key. split; [exact Hc|]. split; [exact Hconn|].
      split; [exact Hkey|]. simpl. rewrite Ht', Ht, <- Hconn. reflexivity.
    + destruct (Client_send client _ w1) as [[[]|e| |] w2]; simpl in *;
        subst; [congruence|..]; (split; [congruence|left; congruence]).
  - rewrite Hstuck. simpl. split; [reflexivity|by left].
Qed.

(** ** The connection *)

Lemma bind_ext {A B} (m : M A) (f g : A -> M B) (w : World) :
  (forall a w', f a w' = g a w') -> (m ≫= f) w = (m ≫= g) w.
Proof.
  intros H. rewrite !bind_run. destruct (m w) as [[a|e| |] w']; auto.
Qed.

Lemma bind_never_returns {A B} (m : M A) (f g : A -> M B) (w : World) :
  never_returns m -> (m ≫= f) w = (m ≫= g) w.
Proof.
  intros H. rewrite !bind_run.
  destruct (m w) as [[a|e| |] w'] eqn:E; try reflexivity.
  exfalso. exact (H _ _ _ E).
Qed.

(** X24.  [_new_connection] never gets to its tasks: what it does is the
    same whatever the receive loop and the keep-alive loop would have done,
    and it never returns normally.  Every connection ends in the handshake or
    before it. *)
Theorem new_connection_never_starts_tasks :
  forall (timeline timeline' : list (nat * task_outcome))
         (set_iter set_iter' :
            list (nat * task_outcome) -> list (nat * task_outcome))
         (connection : nat) (path : string) (w : World),
    _new_connection timeline set_iter connection path w =
    _new_connection timeline' set_iter' connection path w
    /\ (forall a w', _new_connection timeline set_iter connection path w
                     <> (Ret a, w')).
Proof.
  intros timeline timeline' set_iter set_iter' connection path w.
  unfold _new_connection.
  destruct (negb _); [split; [reflexivity|discriminate]|].
  destruct (unhexlify _) as [exc|key];
    [destruct exc; split; (reflexivity || discriminate)|].
  split.
  - do 3 (apply bind_ext; intros ? ?).
    apply bind_never_returns, never_returns_handshake.
  - do 3 after_bind. apply never_returns_bind_l, never_returns_handshake.
Qed.


Lemma forallb_is_ascii_false (l : list Ascii.ascii) (a : Ascii.ascii) :
  a ∈ l -> is_ascii a = false -> forallb is_ascii l = false.
Proof.
  induction l as [|x l IH]; intros Hin Hbad.
  - by apply elem_of_nil in Hin.
  - simpl. apply elem_of_cons in Hin as [->|Hin].
    + by rewrite Hbad.
    + rewrite (IH Hin Hbad). apply andb_false_r.
Qed.


(** X27.  A URL path of [PATH_LENGTH] characters one of which is outside
    ASCII is not refused with [PathError]: the [ValueError] that
    [binascii.unhexlify] raises for such a string is no [binascii.Error], so
    it passes the [except] clause and leaves [_new_connection] as it is.  No
    path is created and nothing is sent. *)
Theorem new_connection_non_ascii_path_raises_ValueError :
  forall (timeline : list (nat * task_outcome))
         (set_iter : list (nat * task_outcome) -> list (nat * task_outcome))
         (connection : nat) (path : string) (w : World) (a : Ascii.ascii),
    length (strip_slash (String.list_ascii_of_string path)) = PATH_LENGTH ->
    a ∈ strip_slash (String.list_ascii_of_string path) ->
    is_ascii a = false ->
    _new_connection timeline set_iter connection path w = (Raise ValueError, w).
Proof.
  intros timeline set_iter connection path w a Hlen Hin Hbad.
  unfold _new_connection.
  rewrite bool_decide_eq_true_2 by assumption. cbn [negb]. unfold unhexlify.
  rewrite (forallb_is_ascii_false _ a Hin Hbad). reflexivity.
Qed.

(** ** What a connection does to the path table *)

Lemma keeps_protocol_ret {A} (a : A) : keeps_protocol (mret a : M A).
Proof. intros w. reflexivity. Qed.

Lemma keeps_protocol_raise {A} (e : exn) : keeps_protocol (@raise A e).
Proof. intros w. reflexivity. Qed.

Lemma keeps_protocol_bind {A B} (m : M A) (f : A -> M B) :
  keeps_protocol m -> (forall a, keeps_protocol (f a)) ->
  keeps_protocol (m ≫= f).
Proof.
  intros Hm Hf w. rewrite bind_run. specialize (Hm w).
  destruct (m w) as [[a|e| |] w1]; simpl in Hm; try exact Hm.
  rewrite (Hf a w1). exact Hm.
Qed.

Lemma keeps_protocol_load_client c : keeps_protocol (load_client c).
Proof. intros w. unfold load_client. by destruct (clients w !! c). Qed.

Lemma keeps_protocol_update_client c f : keeps_protocol (update_client c f).
Proof. intros w. unfold update_client. by destruct (clients w !! c). Qed.

Lemma keeps_protocol_load_path p : keeps_protocol (load_path p).
Proof. intros w. unfold load_path. by destruct (path_objs w !! p). Qed.

Lemma keeps_protocol_update_path p f : keeps_protocol (update_path p f).
Proof. intros w. unfold update_path. by destruct (path_objs w !! p). Qed.

Lemma keeps_protocol_os_urandom n : keeps_protocol (os_urandom n).
Proof. intros w. reflexivity. Qed.

Lemma keeps_protocol_new_ref : keeps_protocol new_ref.
Proof. intros w. reflexivity. Qed.

Lemma keeps_protocol_create_task t : keeps_protocol (create_task t).
Proof. intros w. reflexivity. Qed.

Lemma keeps_protocol_set_clients f : keeps_protocol (modify (set_clients f)).
Proof. intros w. reflexivity. Qed.

Lemma keeps_protocol_Client_close obj : keeps_protocol (Client_close obj).
Proof. intros w. by destruct obj. Qed.

Lemma keeps_protocol_Client_send self message :
  keeps_protocol (Client_send self message).
Proof.
  intros w. unfold Client_send, load_client. rewrite bind_run.
  destruct (clients w !! self) as [c|]; [|reflexivity].
  unfold try_except, connection_send, get_connection. rewrite bind_run.
  destruct (connections w !! _connection c) as [k|]; [|reflexivity].
  destruct (conn_open k); [|reflexivity]. by destruct (writable k).
Qed.

Lemma keeps_protocol_Client_receive self : keeps_protocol (Client_receive self).
Proof. intros w. apply Client_receive_effects. Qed.

Create HintDb keeps.

#[local] Hint Resolve keeps_protocol_ret keeps_protocol_raise
  keeps_protocol_load_client keeps_protocol_update_client
  keeps_protocol_load_path keeps_protocol_update_path
  keeps_protocol_os_urandom keeps_protocol_new_ref keeps_protocol_create_task
  keeps_protocol_set_clients keeps_protocol_Client_close
  keeps_protocol_Client_send keeps_protocol_Client_receive : keeps.

Ltac keeps_steps :=
  repeat first
    [ progress auto with keeps
    | apply keeps_protocol_bind; [|intros ?; cbv beta]
    | case_match
    | case_if ].

Lemma keeps_protocol_Client_server_key self :
  keeps_protocol (Client_server_key self).
Proof. unfold Client_server_key, SecretKey_new. keeps_steps. Qed.

Lemma keeps_protocol_Client_set_client_key self key :
  keeps_protocol (Client_set_client_key self key).
Proof.
  unfold Client_set_client_key. pose proof keeps_protocol_Client_server_key.
  keeps_steps.
Qed.

Lemma keeps_protocol_Client_update_log_name self id_ :
  keeps_protocol (Client_update_log_name self id_).
Proof. unfold Client_update_log_name. keeps_steps. Qed.

Lemma keeps_protocol_Path_set_initiator self initiator :
  keeps_protocol (Path_set_initiator self initiator).
Proof.
  unfold Path_set_initiator. pose proof keeps_protocol_Client_update_log_name.
  keeps_steps.
Qed.

Lemma keeps_protocol_Path_add_responder self responder :
  keeps_protocol (Path_add_responder self responder).
Proof.
  unfold Path_add_responder. apply keeps_protocol_bind; [auto with keeps|].
  intros p. by destruct (dict.keys (_slots p)).
Qed.

Lemma keeps_protocol_handshake_initiator path initiator message server_cookie :
  keeps_protocol (_handshake_initiator path initiator message server_cookie).
Proof.
  unfold _handshake_initiator, Message_server_cookie, Message_client_cookie,
    Path_get_responder_ids.
  pose proof keeps_protocol_Path_set_initiator. keeps_steps.
Qed.

Lemma keeps_protocol_handshake_responder path responder message server_cookie :
  keeps_protocol (_handshake_responder path responder message server_cookie).
Proof.
  unfold _handshake_responder, _handshake_responder_notify, send_to,
    Message_server_cookie, Message_client_cookie, Message_client_public_key,
    Path_get_initiator.
  pose proof keeps_protocol_Client_set_client_key.
  pose proof keeps_protocol_Path_add_responder. keeps_steps.
Qed.

Lemma keeps_protocol_handshake path client :
  keeps_protocol (_handshake path client).
Proof.
  unfold _handshake.
  pose proof keeps_protocol_Client_server_key.
  pose proof keeps_protocol_handshake_initiator.
  pose proof keeps_protocol_handshake_responder. keeps_steps.
Qed.

Lemma unhexlify_digits_length (l : list Ascii.ascii) :
  (forall b, unhexlify_digits l = Some b -> length l = (2 * length b)%nat)
  /\ (forall x b, unhexlify_digits (x :: l) = Some b ->
        length (x :: l) = (2 * length b)%nat).
Proof.
  induction l as [|y l [IH1 IH2]].
  - split.
    + intros b [= <-]. reflexivity.
    + intros x b. discriminate.
  - split; [exact (IH2 y)|].
    intros x b. cbn [unhexlify_digits].
    destruct (hex_digit x) as [hx|]; [|discriminate]. simpl.
    destruct (hex_digit y) as [hy|]; [|discriminate]. simpl.
    destruct (unhexlify_digits l) as [tail|] eqn:E; [|discriminate]. simpl.
    intros [= <-]. simpl. rewrite (IH1 tail eq_refl). lia.
Qed.

(** X26.  What a connection does to the [Protocol] instance: either nothing,
    or it has registered one new path, under a key of [KEY_LENGTH] bytes that
    had no path, numbered by the path counter which went up by one.  It never
    deletes or replaces an entry of the path table. *)
Theorem new_connection_registers_at_most_one_path :
  forall (timeline : list (nat * task_outcome))
         (set_iter : list (nat * task_outcome) -> list (nat * task_outcome))
         (connection : nat) (path : string) (w : World),
    let w' := (_new_connection timeline set_iter connection path w).2 in
    protocol w' = protocol w
    \/ exists key,
         length key = KEY_LENGTH
         /\ _paths (protocol w) !! key = None
         /\ _paths (protocol w') = <[key := next_ref w]> (_paths (protocol w))
         /\ _path_number (protocol w') = _path_number (protocol w) + 1
         /\ _closed_future_done (protocol w') = _closed_future_done (protocol w).
Proof.
  intros timeline set_iter connection path w. unfold _new_connection.
  destruct (bool_decide _) eqn:Hlen; [|by left].
  apply bool_decide_eq_true_1 in Hlen.
  destruct (unhexlify _) as [exc|key] eqn:Hhex; [left; by destruct exc|].
  cbn [negb].
  assert (Hkey : length key = KEY_LENGTH).
  { unfold unhexlify in Hhex. destruct (forallb is_ascii _); [|discriminate].
    destruct (unhexlify_digits _) as [b|] eqn:Hdigits; [|discriminate].
    injection Hhex as <-.
    apply (proj1 (unhexlify_digits_length _)) in Hdigits.
    rewrite Hlen in Hdigits. unfold PATH_LENGTH in Hdigits. lia. }
  assert (Hrest : forall r, keeps_protocol
            (p ← load_path r;
             client ← Client_init connection (number p) key None;
             _handshake r client;;
             c ← load_client client;
             match type c with
             | Some _ => mret tt
             | None => raise ValueError
             end;;
             _new_connection_wait timeline set_iter)).
  { intros r. unfold Client_init. pose proof keeps_protocol_handshake.
    assert (keeps_protocol (_new_connection_wait timeline set_iter))
      by (intros w0; apply new_connection_wait_keeps_paths).
    keeps_steps. }
  rewrite bind_run.
  destruct (_paths (protocol w) !! key) as [r|] eqn:Hpresent.
  - left. rewrite (get_path_present _ _ _ Hpresent). apply Hrest.
  - right. exists key.
    destruct (get_path_absent w key Hpresent)
      as (w1 & Hrun & Hpaths & Hnum & Hflag & _).
    rewrite Hrun, (Hrest (next_ref w) w1).
    split; [exact Hkey|]. split; [exact Hpresent|]. split; [exact Hpaths|].
    split; [exact Hnum|]. exact Hflag.
Qed.

End Engine.

(** * The theorems at concrete inputs *)

Lemma C8_relay_without_receiver_witness :
  clients (relay_world []) !! 1%nat = Some relay_client
  /\ connections (relay_world []) !! _connection relay_client = Some (peer [])
  /\ sent (trace (_relay_message toy_hash toy_pack 0 1 None
                    (RawMessage 0x05 [1; 2] [3; 4]) (relay_world [])).2) =
     [(0%nat, SendErrorMessage (toy_hash [1; 2; 3; 4]))].
Proof.
  assert (Hc : clients (relay_world []) !! 1%nat = Some relay_client)
    by (vm_compute; reflexivity).
  assert (Hk : connections (relay_world []) !! _connection relay_client
               = Some (peer []))
    by (vm_compute; reflexivity).
  destruct (C8_relay_without_receiver_sends_send_error toy_hash toy_pack
              (relay_world []) 0 1 relay_client (peer []) 0x05 [1; 2] [3; 4]
              Hc Hk) as [_ Hsent].
  split; [exact Hc|]. split; [exact Hk|].
  rewrite (Hsent eq_refl eq_refl). reflexivity.
Defined.

Lemma C10_relay_to_initiator_slot_witness :
  _closed_future_done (protocol (relay_world [inr (RawMessage 0x01 [1; 2] [3; 4])]))
    = false
  /\ (_run_initiator 1 0 1 (relay_world [inr (RawMessage 0x01 [1; 2] [3; 4])])).1
     = Raise ValueError.
Proof.
  pose (w := relay_world [inr (RawMessage 0x01 [1; 2] [3; 4])]).
  assert (Hopen : _closed_future_done (protocol w) = false) by reflexivity.
  assert (Hc : clients w !! 1%nat = Some relay_client)
    by (vm_compute; reflexivity).
  assert (Hk : connections w !! _connection relay_client
               = Some (peer [inr (RawMessage 0x01 [1; 2] [3; 4])]))
    by (vm_compute; reflexivity).
  destruct (C10_relay_to_initiator_slot_raises_ValueError w 0 1 0 relay_client
              (peer [inr (RawMessage 0x01 [1; 2] [3; 4])]) [1; 2] [3; 4] [] []
              Hopen Hc Hk eq_refl) as [Hrun _].
  split; [exact Hopen|]. fold w. rewrite Hrun. reflexivity.
Defined.

Lemma set_initiator_then_get_initiator_witness :
  path_objs (relay_world []) !! 0%nat = Some relay_path
  /\ clients (relay_world []) !! 1%nat = Some relay_client
  /\ exists w', Path_set_initiator 0 1 (relay_world []) = (Ret (Some 1%nat), w')
                /\ Path_get_initiator 0 w' = (Ret (Some 1%nat), w').
Proof.
  assert (Hp : path_objs (relay_world []) !! 0%nat = Some relay_path)
    by (vm_compute; reflexivity).
  assert (Hc : clients (relay_world []) !! 1%nat = Some relay_client)
    by (vm_compute; reflexivity).
  destruct (set_initiator_then_get_initiator (relay_world []) 0 1 relay_path
              relay_client Hp Hc) as (w' & Hset & _ & Hget & _).
  split; [exact Hp|]. split; [exact Hc|].
  exists w'. split; [exact Hset|exact Hget].
Defined.

Lemma set_initiator_keeps_slot_keys_witness :
  path_objs (relay_world []) !! 0%nat = Some relay_path
  /\ clients (relay_world []) !! 1%nat = Some relay_client
  /\ dict.keys (_slots relay_path) = seqZ 0x01 0xff
  /\ Path_get_responder_ids 0 (relay_world []) =
     (Ret (seqZ 0x02 254), relay_world []).
Proof.
  assert (Hp : path_objs (relay_world []) !! 0%nat = Some relay_path)
    by (vm_compute; reflexivity).
  assert (Hc : clients (relay_world []) !! 1%nat = Some relay_client)
    by (vm_compute; reflexivity).
  assert (Hk : dict.keys (_slots relay_path) = seqZ 0x01 0xff)
    by (vm_compute; reflexivity).
  destruct (set_initiator_keeps_slot_keys (relay_world []) 0 1 relay_path
              relay_client Hp Hc Hk) as (w' & p' & _ & _ & _ & Hids & _).
  split; [exact Hp|]. split; [exact Hc|]. split; [exact Hk|exact Hids].
Defined.

Lemma get_responder_bounds_witness :
  path_objs (relay_world []) !! 0%nat = Some relay_path
  /\ Path_get_responder 0 0x00 (relay_world []) =
     (Raise ValueError, relay_world [])
  /\ Path_get_responder 0 0x05 (relay_world []) = (Ret None, relay_world []).
Proof.
  assert (Hp : path_objs (relay_world []) !! 0%nat = Some relay_path)
    by (vm_compute; reflexivity).
  split; [exact Hp|]. split.
  - apply (proj1 (get_responder_bounds (relay_world []) 0 relay_path 0x00 Hp)).
    lia.
  - apply (proj2 (get_responder_bounds (relay_world []) 0 relay_path 0x05 Hp)).
    lia.
Defined.

Lemma get_path_creates_numbered_empty_path_witness :
  _paths (protocol (boot ∅)) !! path_key = None
  /\ exists r w1 p,
       _get_path path_key (boot ∅) = (Ret r, w1)
       /\ path_objs w1 !! r = Some p
       /\ number p = 1.
Proof.
  assert (H : _paths (protocol (boot ∅)) !! path_key = None)
    by (vm_compute; reflexivity).
  destruct (get_path_creates_numbered_empty_path (boot ∅) path_key H)
    as (r & w1 & p & Hrun & Hp & Hn & _).
  split; [exact H|]. exists r, w1, p. split; [exact Hrun|].
  split; [exact Hp|exact Hn].
Defined.

Lemma get_path_then_clean_path_witness :
  _paths (protocol (boot ∅)) !! path_key = None
  /\ exists w2,
       (path ← _get_path path_key; _clean_path path) (boot ∅) = (Ret tt, w2)
       /\ _paths (protocol w2) = ∅
       /\ _path_number (protocol w2) = 1.
Proof.
  assert (H : _paths (protocol (boot ∅)) !! path_key = None)
    by (vm_compute; reflexivity).
  destruct (get_path_then_clean_path (boot ∅) path_key H)
    as (w2 & Hrun & Hpaths & Hn).
  split; [exact H|]. exists w2. split; [exact Hrun|].
  split; [exact Hpaths|exact Hn].
Defined.

Lemma clean_path_twice_raises_KeyError_witness :
  path_objs one_path_world !! 0%nat = Some (Path_new path_key 1)
  /\ Path_is_empty (Path_new path_key 1) = true
  /\ _paths (protocol one_path_world) !! path_key = Some 0%nat
  /\ exists w1, _clean_path 0 one_path_world = (Ret tt, w1)
                /\ _clean_path 0 w1 = (Raise KeyError, w1).
Proof.
  assert (Hp : path_objs one_path_world !! 0%nat = Some (Path_new path_key 1))
    by (vm_compute; reflexivity).
  assert (He : Path_is_empty (Path_new path_key 1) = true)
    by (vm_compute; reflexivity).
  assert (Hr : _paths (protocol one_path_world) !!
                 initiator_key (Path_new path_key 1) = Some 0%nat)
    by (vm_compute; reflexivity).
  destruct (clean_path_twice_raises_KeyError one_path_world 0 0
              (Path_new path_key 1) Hp He Hr) as (w1 & H1 & _ & H2).
  split; [exact Hp|]. split; [exact He|]. split; [exact Hr|].
  exists w1. split; [exact H1|exact H2].
Defined.

Lemma server_key_created_once_witness :
  clients (relay_world []) !! 1%nat = Some relay_client
  /\ exists k w1,
       Client_server_key toy_pk 1 (relay_world []) = (Ret k, w1)
       /\ Client_server_key toy_pk 1 w1 = (Ret k, w1).
Proof.
  assert (Hc : clients (relay_world []) !! 1%nat = Some relay_client)
    by (vm_compute; reflexivity).
  destruct (server_key_created_once toy_pk (relay_world []) 1 relay_client Hc)
    as (k & w1 & H1 & _ & H2 & _).
  split; [exact Hc|]. exists k, w1. split; [exact H1|exact H2].
Defined.

Lemma set_client_key_rebuilds_box_witness :
  clients (relay_world []) !! 1%nat = Some relay_client
  /\ exists k w1,
       Client_set_client_key toy_pk 1 [9; 9] (relay_world []) = (Ret tt, w1)
       /\ Client_box toy_pk 1 w1 =
          (Ret {| box_sk := sk k; box_pk := [9; 9] |}, w1).
Proof.
  assert (Hc : clients (relay_world []) !! 1%nat = Some relay_client)
    by (vm_compute; reflexivity).
  destruct (set_client_key_rebuilds_box toy_pk (relay_world []) 1 relay_client
              [9; 9] Hc) as (k & w1 & c1 & H1 & _ & _ & _ & _ & H2).
  split; [exact Hc|]. exists k, w1. split; [exact H1|exact H2].
Defined.

Lemma send_bytes_raises_only_Disconnected_witness :
  Client_send toy_pack 2 (AsBytes [1]) (duo_world closed_peer) =
    (Raise Disconnected, duo_world closed_peer)
  /\ exists c k, clients (duo_world closed_peer) !! 2%nat = Some c
                 /\ connections (duo_world closed_peer) !! _connection c = Some k
                 /\ conn_open k = false.
Proof.
  assert (H : Client_send toy_pack 2 (AsBytes [1]) (duo_world closed_peer) =
              (Raise Disconnected, duo_world closed_peer))
    by (vm_compute; reflexivity).
  split; [exact H|].
  exact (proj2 (proj2
           (send_bytes_raises_only_Disconnected toy_pack _ _ _ _ _ H))).
Defined.

Lemma ping_raises_only_Disconnected_witness :
  Client_ping 2 (duo_world closed_peer) =
    (Raise Disconnected, duo_world closed_peer)
  /\ exists c k, clients (duo_world closed_peer) !! 2%nat = Some c
                 /\ connections (duo_world closed_peer) !! _connection c = Some k
                 /\ conn_open k = false.
Proof.
  assert (H : Client_ping 2 (duo_world closed_peer) =
              (Raise Disconnected, duo_world closed_peer))
    by (vm_compute; reflexivity).
  split; [exact H|].
  exact (proj2 (proj2 (ping_raises_only_Disconnected _ _ _ _ H))).
Defined.

Lemma relay_forwards_frame_verbatim_witness :
  clients (duo_world (peer [])) !! 1%nat = Some relay_client
  /\ clients (duo_world (peer [])) !! 2%nat = Some receiver_client
  /\ connections (duo_world (peer [])) !! _connection receiver_client
     = Some (peer [])
  /\ trace (_relay_message toy_hash toy_pack 0 1 (Some 2%nat)
              (RawMessage 0x02 [1; 2] [3; 4]) (duo_world (peer []))).2 =
     [EvSend 1 (AsMessage (RawMessage 0x02 [1; 2] [3; 4])) [1; 2; 3; 4]].
Proof.
  assert (Hs : clients (duo_world (peer [])) !! 1%nat = Some relay_client)
    by (vm_compute; reflexivity).
  assert (Hc : clients (duo_world (peer [])) !! 2%nat = Some receiver_client)
    by (vm_compute; reflexivity).
  assert (Hk : connections (duo_world (peer [])) !! _connection receiver_client
               = Some (peer []))
    by (vm_compute; reflexivity).
  split; [exact Hs|]. split; [exact Hc|]. split; [exact Hk|].
  rewrite (relay_forwards_frame_verbatim toy_hash toy_pack
             (duo_world (peer [])) 0 1 2 relay_client receiver_client (peer [])
             0x02 [1; 2] [3; 4] Hs Hc Hk eq_refl eq_refl).
  reflexivity.
Defined.

Lemma relay_failure_sends_send_error_witness :
  clients (duo_world closed_peer) !! 1%nat = Some relay_client
  /\ connections (duo_world closed_peer) !! _connection relay_client
     = Some (peer [])
  /\ clients (duo_world closed_peer) !! 2%nat = Some receiver_client
  /\ connections (duo_world closed_peer) !! _connection receiver_client
     = Some closed_peer
  /\ sent (trace (_relay_message toy_hash toy_pack 0 1 (Some 2%nat)
                    (RawMessage 0x02 [1; 2] [3; 4]) (duo_world closed_peer)).2)
     = [(0%nat, SendErrorMessage (toy_hash [1; 2; 3; 4]))].
Proof.
  assert (Hs : clients (duo_world closed_peer) !! 1%nat = Some relay_client)
    by (vm_compute; reflexivity).
  assert (Hks : connections (duo_world closed_peer) !! _connection relay_client
                = Some (peer []))
    by (vm_compute; reflexivity).
  assert (Hc : clients (duo_world closed_peer) !! 2%nat = Some receiver_client)
    by (vm_compute; reflexivity).
  assert (Hk : connections (duo_world closed_peer) !!
                 _connection receiver_client = Some closed_peer)
    by (vm_compute; reflexivity).
  split; [exact Hs|]. split; [exact Hks|]. split; [exact Hc|].
  split; [exact Hk|].
  rewrite (relay_failure_sends_send_error toy_hash toy_pack
             (duo_world closed_peer) 0 1 2 relay_client receiver_client
             (peer []) closed_peer 0x02 [1; 2] [3; 4]
             Hs Hks eq_refl eq_refl Hc Hk (or_introl eq_refl)).
  reflexivity.
Defined.

Lemma drop_responder_free_slot_is_noop_witness :
  path_objs (relay_world []) !! 0%nat = Some relay_path
  /\ dict_get 0x05 (_slots relay_path) = None
  /\ _run_initiator_dispatch 0 1 (DropResponderMessage 0x05) (relay_world [])
     = (Ret tt, relay_world []).
Proof.
  assert (Hp : path_objs (relay_world []) !! 0%nat = Some relay_path)
    by (vm_compute; reflexivity).
  assert (Hf : dict_get 0x05 (_slots relay_path) = None)
    by (vm_compute; reflexivity).
  split; [exact Hp|]. split; [exact Hf|].
  apply (drop_responder_free_slot_is_noop (relay_world []) 0 1 relay_path 0x05
           Hp); [lia|exact Hf].
Defined.

Lemma handshake_initiator_rejects_wrong_cookie_witness :
  clients (relay_world [inr (ClientAuthMessage [1] [2])]) !! 1%nat
    = Some relay_client
  /\ exists w',
       _handshake_after_hello toy_pk toy_pack 0 1 [0]
         (relay_world [inr (ClientAuthMessage [1] [2])])
       = (Raise MessageError, w')
       /\ trace w' = [].
Proof.
  pose (w := relay_world [inr (ClientAuthMessage [1] [2])]).
  assert (Hc : clients w !! 1%nat = Some relay_client)
    by (vm_compute; reflexivity).
  assert (Hk : connections w !! _connection relay_client
               = Some (peer [inr (ClientAuthMessage [1] [2])]))
    by (vm_compute; reflexivity).
  assert (Hne : [1] <> [0]) by discriminate.
  destruct (handshake_initiator_rejects_wrong_cookie toy_pk toy_pack w 0 1
              relay_client (peer [inr (ClientAuthMessage [1] [2])])
              [1] [2] [0] [] Hc Hk eq_refl Hne)
    as (w' & Hrun & _ & _ & _ & Ht & _).
  split; [exact Hc|]. exists w'. split; [exact Hrun|exact Ht].
Defined.

Lemma handshake_responder_rejects_wrong_cookie_witness :
  clients (relay_world [inr (ClientAuthMessage [1] [2])]) !! 1%nat
    = Some relay_client
  /\ exists w',
       _handshake_responder toy_pk toy_pack 0 1 (ClientHelloMessage [9; 9]) [0]
         (relay_world [inr (ClientAuthMessage [1] [2])])
       = (Raise MessageError, w')
       /\ path_objs w' = path_objs (relay_world [inr (ClientAuthMessage [1] [2])]).
Proof.
  pose (w := relay_world [inr (ClientAuthMessage [1] [2])]).
  assert (Hc : clients w !! 1%nat = Some relay_client)
    by (vm_compute; reflexivity).
  assert (Hk : connections w !! _connection relay_client
               = Some (peer [inr (ClientAuthMessage [1] [2])]))
    by (vm_compute; reflexivity).
  assert (Hne : [1] <> [0]) by discriminate.
  destruct (handshake_responder_rejects_wrong_cookie toy_pk toy_pack w 0 1
              relay_client (peer [inr (ClientAuthMessage [1] [2])])
              [9; 9] [1] [2] [0] [] Hc Hk eq_refl Hne)
    as (w' & Hrun & _ & Hp & _).
  split; [exact Hc|]. exists w'. split; [exact Hrun|exact Hp].
Defined.

Lemma handshake_rejects_unexpected_message_witness :
  clients (relay_world [inr (NewResponderMessage 3)]) !! 1%nat
    = Some relay_client
  /\ (_handshake_after_hello toy_pk toy_pack 0 1 [0]
        (relay_world [inr (NewResponderMessage 3)])).1
     = Raise MessageFlowError.
Proof.
  pose (w := relay_world [inr (NewResponderMessage 3)]).
  assert (Hc : clients w !! 1%nat = Some relay_client)
    by (vm_compute; reflexivity).
  assert (Hk : connections w !! _connection relay_client
               = Some (peer [inr (NewResponderMessage 3)]))
    by (vm_compute; reflexivity).
  split; [exact Hc|]. fold w.
  rewrite (handshake_rejects_unexpected_message toy_pk toy_pack w 0 1
             relay_client (peer [inr (NewResponderMessage 3)])
             (NewResponderMessage 3) [0] [] Hc Hk eq_refl
             ltac:(discriminate) ltac:(discriminate)).
  reflexivity.
Defined.

Lemma handshake_responder_rejects_unexpected_message_witness :
  clients (relay_world [inr (NewResponderMessage 3)]) !! 1%nat
    = Some relay_client
  /\ exists w',
       _handshake_responder toy_pk toy_pack 0 1 (ClientHelloMessage [9; 9]) [0]
         (relay_world [inr (NewResponderMessage 3)])
       = (Raise MessageFlowError, w').
Proof.
  pose (w := relay_world [inr (NewResponderMessage 3)]).
  assert (Hc : clients w !! 1%nat = Some relay_client)
    by (vm_compute; reflexivity).
  assert (Hk : connections w !! _connection relay_client
               = Some (peer [inr (NewResponderMessage 3)]))
    by (vm_compute; reflexivity).
  destruct (handshake_responder_rejects_unexpected_message toy_pk toy_pack w
              0 1 relay_client (peer [inr (NewResponderMessage 3)])
              [9; 9] [0] (NewResponderMessage 3) [] Hc Hk eq_refl
              ltac:(discriminate)) as (w' & Hrun & _).
  split; [exact Hc|]. exists w'. exact Hrun.
Defined.



Lemma run_initiator_schedules_exactly_relays_witness :
  clients (relay_world initiator_frames) !! 1%nat = Some relay_client
  /\ connections (relay_world initiator_frames) !! _connection relay_client
     = Some (peer initiator_frames)
  /\ path_objs (relay_world initiator_frames) !! 0%nat = Some relay_path
  /\ exists consumed rest,
       inbox (peer initiator_frames) = consumed ++ rest
       /\ (length consumed <= 3)%nat
       /\ (_run_initiator 3 0 1 (relay_world initiator_frames)).2 =
          consumed_and_scheduled (_connection relay_client) (peer initiator_frames) rest
            (omap (initiator_relay relay_path 0 1) consumed)
            (relay_world initiator_frames).
Proof.
  assert (Hc : clients (relay_world initiator_frames) !! 1%nat = Some relay_client)
    by (vm_compute; reflexivity).
  assert (Hk : connections (relay_world initiator_frames) !! _connection relay_client
               = Some (peer initiator_frames))
    by (vm_compute; reflexivity).
  assert (Hp : path_objs (relay_world initiator_frames) !! 0%nat = Some relay_path)
    by (vm_compute; reflexivity).
  split; [exact Hc|]. split; [exact Hk|]. split; [exact Hp|].
  exact (run_initiator_schedules_exactly_relays 3 0 1 (relay_world initiator_frames)
           relay_client (peer initiator_frames) relay_path Hc Hk Hp).
Defined.

Lemma run_responder_schedules_exactly_relays_witness :
  clients (relay_world responder_frames) !! 1%nat = Some relay_client
  /\ connections (relay_world responder_frames) !! _connection relay_client
     = Some (peer responder_frames)
  /\ path_objs (relay_world responder_frames) !! 0%nat = Some relay_path
  /\ exists consumed rest,
       inbox (peer responder_frames) = consumed ++ rest
       /\ (length consumed <= 3)%nat
       /\ (_run_responder 3 0 1 (relay_world responder_frames)).2 =
          consumed_and_scheduled (_connection relay_client) (peer responder_frames) rest
            (omap (responder_relay relay_path 0 1) consumed)
            (relay_world responder_frames).
Proof.
  assert (Hc : clients (relay_world responder_frames) !! 1%nat = Some relay_client)
    by (vm_compute; reflexivity).
  assert (Hk : connections (relay_world responder_frames) !! _connection relay_client
               = Some (peer responder_frames))
    by (vm_compute; reflexivity).
  assert (Hp : path_objs (relay_world responder_frames) !! 0%nat = Some relay_path)
    by (vm_compute; reflexivity).
  split; [exact Hc|]. split; [exact Hk|]. split; [exact Hp|].
  exact (run_responder_schedules_exactly_relays 3 0 1 (relay_world responder_frames)
           relay_client (peer responder_frames) relay_path Hc Hk Hp).
Defined.
